(** * huntlib.qradar: the QRadar search client

    A shallow embedding of [src/huntlib/qradar.py] (class [QRadar]) and the
    properties of its job life cycle: construction, query composition,
    submission, the poll wait loop, the result fetch with its retry, and the
    unwrapping of the result envelope.

    The backend, the wall clock and [time.sleep] are modelled by an explicit
    world that every method threads: the world holds the clock and the
    history of the requests issued and the sleeps taken; the backend is a
    script that answers the k-th request of each kind. *)

From Stdlib Require Import ZArith String Ascii List Lia.
From stdpp Require Import base decidable option list strings gmap pretty.

Set Warnings "-register-all".
Local Open Scope string_scope.
Local Open Scope Z_scope.

(** ** Python values *)

(** The values [resp.json()] yields. A [dict] keeps the insertion order of its
    keys, which [list(d.values())[0]] observes, so it is an association list
    (keys distinct, as in a dict). A JSON number with a fraction or an
    exponent is kept as the decimal literal [m * 10^e]. *)
Inductive pyval : Type :=
| PNone
| PBool (b : bool)
| PInt (n : Z)
| PFloat (m e : Z)
| PStr (s : string)
| PList (l : list pyval)
| PDict (d : list (string * pyval)).

(** [x == 'lit'] for a string literal: only a [str] with the same text. *)
Definition py_eq_str (v : pyval) (lit : string) : bool :=
  match v with
  | PStr s => bool_decide (s = lit)
  | _ => false
  end.

(** Truthiness of an optional string argument ([None] and [''] are falsy). *)
Definition truthy_str (o : option string) : bool :=
  match o with
  | Some s => negb (bool_decide (s = ""))
  | None => false
  end.

(** A complete basic pair: a user name and a password, both non-empty. *)
Definition basic_pair (username password : option string) : Prop :=
  truthy_str username = true ∧ truthy_str password = true.

(** [str(n)] for an [int]. *)
Definition str_int (n : Z) : string := pretty n.

(** The line feed of the ['\n'] escapes. *)
Definition nl : string := String (ascii_of_nat 10) EmptyString.

(** ** Exceptions *)

(** One constructor per [raise] site of the module, then the built-in errors of
    the expressions that can fail on a response body. *)
Inductive exn : Type :=
| NoCredentials                   (* Exception("No credentials supplied") *)
| CannotStartSearch               (* Exception('Cannot start search') *)
| SearchFailed (status : pyval)   (* Exception(f'Search did not finish, state is: {status}') *)
| SearchTimedOut (minutes : Z)    (* Exception(f'Search did not finish within {self.timeout} minutes') *)
| CouldNotLoadResults             (* Exception("Could not load search results") *)
| IndexError                      (* list(...)[0] on an empty list *)
| AttributeError                  (* .get / .values on a value that is no dict *)
| JSONDecodeError.                (* resp.json() on a body that is no JSON *)

(** ** Requests, responses and the world *)

Inductive method : Type := POST | GET | DELETE.

(** The three URLs under [https://{console}/api/ariel/]. *)
Inductive endpoint : Type :=
| Searches                        (* searches *)
| Search (search_id : pyval)      (* searches/{search_id} *)
| Results (search_id : pyval).    (* searches/{search_id}/results *)

Record request : Type := Request {
  req_method : method;
  req_console : string;
  req_endpoint : endpoint;
  req_headers : gmap string string;
  req_data : option string;       (* the form field query_expression *)
  req_proxies : option string     (* {'https': proxy} or None *)
}.

(** [status_code] and the parsed body; [None] when the body is no JSON. *)
Record response : Type := Response {
  status_code : Z;
  json_body : option pyval
}.

Inductive event : Type :=
| EvRequest (r : request)
| EvSleep (seconds : Z).

(** The clock counts microseconds. [trace] is the history, newest event first. *)
Record World : Type := MkWorld {
  clock : Z;
  trace : list event
}.

(** The scripted backend: the answer to the k-th request of each kind (k from
    0), and how long the i-th event of the history takes (a request's round
    trip, or how much a sleep overruns), in microseconds. *)
Record Backend : Type := MkBackend {
  post_response : nat -> response;
  status_response : nat -> response;
  results_response : nat -> response;
  duration : nat -> Z
}.

Definition is_post (e : event) : bool :=
  match e with
  | EvRequest (Request POST _ Searches _ _ _) => true
  | _ => false
  end.

Definition is_status_get (e : event) : bool :=
  match e with
  | EvRequest (Request GET _ (Search _) _ _ _) => true
  | _ => false
  end.

Definition is_results_get (e : event) : bool :=
  match e with
  | EvRequest (Request GET _ (Results _) _ _ _) => true
  | _ => false
  end.

Definition is_delete (e : event) : bool :=
  match e with
  | EvRequest (Request DELETE _ _ _ _ _) => true
  | _ => false
  end.

Definition is_request (e : event) : bool :=
  match e with
  | EvRequest _ => true
  | EvSleep _ => false
  end.

Definition is_sleep (e : event) : bool := negb (is_request e).

Definition count (p : event -> bool) (tr : list event) : nat :=
  length (List.filter p tr).

(** The history in the order the events happened. *)
Definition history (w : World) : list event := rev (trace w).

Definition second : Z := 1000000.

(** ** Timestamps *)

(** A [datetime] is the instant it denotes, in microseconds since the epoch
    (its resolution). *)
Record datetime : Type := Datetime { micros : Z }.

(** The binary64 arithmetic the query composer does on timestamps is kept
    behind an interface: [datetime.timestamp()], the product [x * n] of a
    float and an [int], [int(x)] and the text [f'{x}'] of a float. *)
Class PyFloat : Type := {
  float : Type;
  timestamp : datetime -> float;
  fmul : float -> Z -> float;
  float_int : float -> Z;
  float_str : float -> string
}.

(** ** The monad of the methods: world passing with exceptions *)

Inductive outcome (A : Type) : Type :=
| Return (a : A)
| Raise (e : exn)
| OutOfFuel.
Arguments Return {A} a.
Arguments Raise {A} e.
Arguments OutOfFuel {A}.

Definition M (A : Type) : Type := World -> outcome A * World.

#[export] Instance M_ret : MRet M := fun A a w => (Return a, w).

#[export] Instance M_bind : MBind M := fun A B f m w =>
  match m w with
  | (Return a, w') => f a w'
  | (Raise e, w') => (Raise e, w')
  | (OutOfFuel, w') => (OutOfFuel, w')
  end.

Definition raise {A} (e : exn) : M A := fun w => (Raise e, w).
Definition out_of_fuel {A} : M A := fun w => (OutOfFuel, w).

Section Client.

Context (backend : Backend) `{PyFloat}.

(** The answer of the scripted backend to [r], given the history so far. The
    answer to a DELETE is never looked at. *)
Definition respond (tr : list event) (r : request) : response :=
  match req_method r, req_endpoint r with
  | POST, Searches => post_response backend (count is_post tr)
  | GET, Search _ => status_response backend (count is_status_get tr)
  | GET, Results _ => results_response backend (count is_results_get tr)
  | _, _ => Response 200 None
  end.

(** [requests.post], [requests.get], [requests.delete]. *)
Definition send (r : request) : M response := fun w =>
  (Return (respond (trace w) r),
   {| clock := clock w + duration backend (length (trace w));
      trace := EvRequest r :: trace w |}).

(** [time.sleep(s)]. *)
Definition sleep (s : Z) : M unit := fun w =>
  (Return tt,
   {| clock := clock w + s * second + duration backend (length (trace w));
      trace := EvSleep s :: trace w |}).

(** [time.time()], in microseconds. *)
Definition time_time : M Z := fun w => (Return (clock w), w).

(** [datetime.now()]. *)
Definition datetime_now : M datetime := fun w => (Return (Datetime (clock w)), w).

(** [resp.json()]. *)
Definition resp_json (resp : response) : M pyval :=
  match json_body resp with
  | Some v => mret v
  | None => raise JSONDecodeError
  end.

Fixpoint assoc_get (k : string) (d : list (string * pyval)) : option pyval :=
  match d with
  | [] => None
  | (k', v) :: d' => if bool_decide (k' = k) then Some v else assoc_get k d'
  end.

(** [v.get(k)]. *)
Definition py_get (v : pyval) (k : string) : M pyval :=
  match v with
  | PDict d => mret (default PNone (assoc_get k d))
  | _ => raise AttributeError
  end.

(** [list(v.values())]. *)
Definition py_values (v : pyval) : M (list pyval) :=
  match v with
  | PDict d => mret (map snd d)
  | _ => raise AttributeError
  end.

(** [l[0]]. *)
Definition py_first (l : list pyval) : M pyval :=
  match l with
  | x :: _ => mret x
  | [] => raise IndexError
  end.

(** ** The client object *)

Record QRadar : Type := MkQRadar {
  console : string;
  proxy : option string;
  timeout : Z;
  debug : bool;
  cleanup_results : bool;
  headers : gmap string string
}.

(** [QRadar.__init__]. *)
Definition __init__ (console : string) (username password token proxy : option string)
    (timeout : Z) (debug cleanup_results : bool) : M QRadar :=
  let proxy := if truthy_str proxy then proxy else None in
  let headers : gmap string string := {[ "Accept" := "application/json" ]} in
  if truthy_str username && truthy_str password then
    let headers := <[ "username" := default "" username ]> headers in
    let headers := <[ "password" := default "" password ]> headers in
    mret (MkQRadar console proxy timeout debug cleanup_results headers)
  else if truthy_str token then
    let headers := <[ "SEC" := default "" token ]> headers in
    mret (MkQRadar console proxy timeout debug cleanup_results headers)
  else
    raise NoCredentials.

(** [QRadar._log]: prints when [debug] is set; the console output is not part
    of the world. *)
Definition _log (self : QRadar) : M unit := mret tt.

(** [QRadar._get_headers]. *)
Definition _get_headers (self : QRadar) : gmap string string := headers self.

(** The four requests of the client, each with [verify=False] and
    [proxies=self.proxy]: the creation request of [_start_search], with the
    form field [query_expression] and the Content-Type header added to a copy
    of the headers, and the requests of [_get_status], [_get_results] and
    [_delete]. *)
Definition post_search (self : QRadar) (query : string) : request :=
  let headers := _get_headers self in
  let headers := <[ "Content-Type" := "application/x-www-form-urlencoded" ]> headers in
  Request POST (console self) Searches headers (Some query) (proxy self).

Definition get_search (self : QRadar) (search_id : pyval) : request :=
  Request GET (console self) (Search search_id) (_get_headers self) None (proxy self).

Definition get_results (self : QRadar) (search_id : pyval) : request :=
  Request GET (console self) (Results search_id) (_get_headers self) None (proxy self).

Definition delete_search (self : QRadar) (search_id : pyval) : request :=
  Request DELETE (console self) (Search search_id) (_get_headers self) None (proxy self).

(** The world after a request, and after a sleep. *)
Definition requested (w : World) (r : request) : World := snd (send r w).
Definition slept (w : World) (s : Z) : World := snd (sleep s w).

(** The world after [n] rounds of a request followed by a sleep of [s]. *)
Fixpoint retried (n : nat) (r : request) (s : Z) (w : World) : World :=
  match n with
  | O => w
  | S n' => retried n' r s (slept (requested w r) s)
  end.

(** The query composition at the head of [QRadar.search]. *)
Definition build_query (aql : string) (start_time end_time : option datetime)
    (limit : option Z) (priority : option string) : M string :=
  let query := aql in
  let query :=
    match limit with
    | Some n => if negb (n =? 0) then query +:+ nl +:+ " LIMIT " +:+ str_int n else query
    | None => query
    end in
  query ←
    match start_time with
    | Some st =>
        let start_epoch := fmul (timestamp st) 1000 in
        end_ms ←
          match end_time with
          | Some et => mret (fmul (timestamp et) 1000)
          | None => now ← datetime_now; mret (fmul (timestamp now) 1000)
          end;
        let end_epoch := float_int end_ms in
        mret (query +:+ nl +:+ " START " +:+ float_str start_epoch
                    +:+ " STOP " +:+ str_int end_epoch)
    | None => mret query
    end;
  let query :=
    match priority with
    | Some p =>
        if negb (bool_decide (p = "")) && bool_decide (p ∈ ["LOW"; "NORMAL"; "HIGH"])
        then query +:+ nl +:+ " PARAMETERS PRIORITY='" +:+ p +:+ "'"
        else query
    | None => query
    end in
  mret query.

(** [QRadar._start_search]. *)
Definition _start_search (self : QRadar) (query : string) : M pyval :=
  resp ← send (post_search self query);
  if negb (status_code resp =? 201) then
    _log self;;
    raise CannotStartSearch
  else
    body ← resp_json resp;
    py_get body "search_id".

(** [QRadar._get_status]. *)
Definition _get_status (self : QRadar) (search_id : pyval) : M pyval :=
  resp ← send (get_search self search_id);
  body ← resp_json resp;
  status ← py_get body "status";
  _ ← py_get body "progress";
  _log self;;
  mret status.

(** [QRadar._get_results]. The recursion of the retry is on [fuel]. *)
Fixpoint _get_results (fuel : nat) (self : QRadar) (search_id : pyval) (attempt : Z)
    : M pyval :=
  match fuel with
  | O => out_of_fuel
  | S fuel' =>
      resp ← send (get_results self search_id);
      if negb (status_code resp =? 200) then
        _log self;;
        if attempt <=? 10 then
          sleep 5;;
          _get_results fuel' self search_id (attempt + 1)
        else
          raise CouldNotLoadResults
      else
        body ← resp_json resp;
        values ← py_values body;
        py_first values
  end.

(** [QRadar._delete]. *)
Definition _delete (self : QRadar) (search_id : pyval) : M unit :=
  _ ← send (delete_search self search_id);
  _log self.

(** The [while ... else] of [QRadar.search]: returns on [break], and runs the
    [else] branch when the condition turns false. One unit of [fuel] per
    evaluation of the condition. *)
Fixpoint wait_loop (fuel : nat) (self : QRadar) (search_id : pyval)
    (search_start timeout_at : Z) : M unit :=
  match fuel with
  | O => out_of_fuel
  | S fuel' =>
      now ← time_time;
      if now <? timeout_at then
        status ← _get_status self search_id;
        _log self;;
        if py_eq_str status "CANCELED" || py_eq_str status "ERROR" then
          raise (SearchFailed status)
        else if py_eq_str status "COMPLETED" then
          mret tt
        else
          sleep 5;;
          wait_loop fuel' self search_id search_start timeout_at
      else
        _delete self search_id;;
        raise (SearchTimedOut (timeout self))
  end.

(** [QRadar.search]. *)
Definition search (fuel : nat) (self : QRadar) (aql : string)
    (start_time end_time : option datetime) (limit : option Z) (priority : option string)
    : M pyval :=
  query ← build_query aql start_time end_time limit priority;
  _log self;;
  search_id ← _start_search self query;
  _log self;;
  search_start ← time_time;
  let timeout_at := search_start + timeout self * 60 * second in
  wait_loop fuel self search_id search_start timeout_at;;
  results ← _get_results fuel self search_id 0;
  (if cleanup_results self then _delete self search_id else mret tt);;
  mret results.

End Client.

Arguments requested : simpl never.
Arguments slept : simpl never.

(** The answer [resp] to a status request reports the status [s]: its body is
    a JSON object whose [status] is the string [s]. *)
Definition reports (resp : response) (s : string) : Prop :=
  ∃ d, json_body resp = Some (PDict d) ∧ assoc_get "status" d = Some (PStr s).

(** What the wait loop makes of the answer to a poll: [_get_status] reads the
    body, whatever the status code, and the loop tests the status. *)
Inductive verdict : Type :=
| Pending                     (* sleep and poll again *)
| Done                        (* break *)
| Failed (status : pyval)     (* raise "Search did not finish, state is" *)
| Broken (e : exn).           (* the error of reading the body *)

Definition judge (resp : response) : verdict :=
  match json_body resp with
  | None => Broken JSONDecodeError
  | Some (PDict d) =>
      let status := default PNone (assoc_get "status" d) in
      if py_eq_str status "CANCELED" || py_eq_str status "ERROR" then Failed status
      else if py_eq_str status "COMPLETED" then Done
      else Pending
  | Some _ => Broken AttributeError
  end.

(** [list(resp.json().values())[0]] on an answer. *)
Definition unwrap (resp : response) : outcome pyval :=
  match json_body resp with
  | None => Raise JSONDecodeError
  | Some (PDict []) => Raise IndexError
  | Some (PDict ((_, rows) :: _)) => Return rows
  | Some _ => Raise AttributeError
  end.

(** [resp.json().get('search_id')] on an answer. *)
Definition created_id (resp : response) : outcome pyval :=
  match json_body resp with
  | None => Raise JSONDecodeError
  | Some (PDict d) => Return (default PNone (assoc_get "search_id" d))
  | Some _ => Raise AttributeError
  end.

(** The events of [n] rounds of a request followed by a sleep, newest first. *)
Fixpoint rounds (n : nat) (r : request) (s : Z) : list event :=
  match n with
  | O => []
  | S n' => (rounds n' r s ++ [EvSleep s; EvRequest r])%list
  end.

(** An event of the poll phase of a search, and one of its fetch phase. *)
Definition polling (self : QRadar) (search_id : pyval) (e : event) : Prop :=
  e = EvRequest (get_search self search_id) ∨ e = EvSleep 5.

Definition fetching (self : QRadar) (search_id : pyval) (e : event) : Prop :=
  e = EvRequest (get_results self search_id) ∨ e = EvSleep 5.

(** Whether a search that ends with outcome [o] has sent a delete: on the
    time-out of the wait loop, and on success when [cleanup_results] is set. *)
Definition cleans_up (self : QRadar) (o : outcome pyval) : bool :=
  match o with
  | Return _ => cleanup_results self
  | Raise (SearchTimedOut _) => true
  | _ => false
  end.

(** ** The clauses of the composed query, as the specification words them *)

Section Clauses.

Context `{PyFloat}.

(** The row limit: [LIMIT <n>], nothing when omitted. *)
Definition limit_clause (limit : option Z) : string :=
  match limit with
  | Some n => if n =? 0 then "" else nl +:+ " LIMIT " +:+ str_int n
  | None => ""
  end.

(** The time window: [START <s> STOP <e>] when a start is given, the end
    defaulting to the reading [now] of the wall clock. *)
Definition time_clause (now : datetime) (start_time end_time : option datetime) : string :=
  match start_time with
  | Some st =>
      nl +:+ " START " +:+ float_str (fmul (timestamp st) 1000)
         +:+ " STOP " +:+ str_int (float_int (fmul (timestamp (default now end_time)) 1000))
  | None => ""
  end.

(** The priority: [PARAMETERS PRIORITY='<p>'] for LOW, NORMAL and HIGH. *)
Definition priority_clause (priority : option string) : string :=
  match priority with
  | Some p =>
      if bool_decide (p ∈ ["LOW"; "NORMAL"; "HIGH"])
      then nl +:+ " PARAMETERS PRIORITY='" +:+ p +:+ "'"
      else ""
  | None => ""
  end.

(** The text [build_query] composes when the wall clock reads [now]. *)
Definition composed_query (now : datetime) (aql : string)
    (start_time end_time : option datetime) (limit : option Z) (priority : option string)
    : string :=
  aql +:+ limit_clause limit +:+ time_clause now start_time end_time
      +:+ priority_clause priority.

End Clauses.

(** ** Sample data *)

Module Sample.

(** An idealised instance of the float interface, exact on decimals with six
    places: a float is the integer [x] standing for [x / 10^6], printed in
    plain decimal notation with at least one place. *)
Fixpoint strip_zeros (s : string) : string :=
  match s with
  | EmptyString => EmptyString
  | String c r =>
      match strip_zeros r with
      | EmptyString => if bool_decide (c = "0"%char) then EmptyString else String c EmptyString
      | r' => String c r'
      end
  end.

Definition places (n : Z) : string :=
  match pretty (1000000 + n) with
  | String _ r => match strip_zeros r with EmptyString => "0" | r' => r' end
  | EmptyString => "0"
  end.

Definition fixed_str (x : Z) : string :=
  (if x <? 0 then "-" else "") +:+ pretty (Z.abs x / 1000000)
    +:+ "." +:+ places (Z.abs x mod 1000000).

#[export] Instance fixed_point : PyFloat := {|
  float := Z;
  timestamp dt := micros dt;
  fmul x n := x * n;
  float_int x := Z.quot x 1000000;
  float_str := fixed_str
|}.

Definition ok (body : pyval) : response := Response 200 (Some body).
Definition created (search_id : string) : response :=
  Response 201 (Some (PDict [("search_id", PStr search_id)])).
Definition status_body (status : string) : response :=
  Response 200 (Some (PDict [("status", PStr status); ("progress", PInt 50)])).
Definition unavailable : response := Response 503 None.

Definition rows : pyval := PList [PDict [("a", PInt 1)]; PDict [("a", PInt 2)]].
Definition events : pyval := PDict [("events", rows)].

(** Every request takes 200 ms and every sleep overruns by 200 ms. *)
Definition lag (i : nat) : Z := 200000.

(** The results endpoint fails [n] times and then answers with [events]. *)
Definition flaky (n : nat) : Backend := {|
  post_response _ := created "abc";
  status_response _ := status_body "COMPLETED";
  results_response k := if (k <? n)%nat then unavailable else ok events;
  duration := lag
|}.

(** The job reports the statuses of [l], then [last] for ever. *)
Definition scripted (l : list string) (last : string) : Backend := {|
  post_response _ := created "abc";
  status_response k := status_body (nth k l last);
  results_response _ := ok events;
  duration := lag
|}.

(** The creation request is refused. *)
Definition refusing : Backend := {|
  post_response _ := Response 422 None;
  status_response _ := status_body "COMPLETED";
  results_response _ := ok events;
  duration := lag
|}.

(** The results endpoint answers with an empty envelope. *)
Definition hollow : Backend := {|
  post_response _ := created "abc";
  status_response _ := status_body "COMPLETED";
  results_response _ := ok (PDict []);
  duration := lag
|}.

Definition w0 : World := {| clock := 1600000000000000; trace := [] |}.

Definition token_client : QRadar := {|
  console := "qradar.example.com";
  proxy := None;
  timeout := 1;
  debug := false;
  cleanup_results := true;
  headers := <[ "SEC" := "s3cr3t" ]> {[ "Accept" := "application/json" ]}
|}.

(** A backend that creates the job "abc" and then follows two scripts. *)
Definition following (status results : nat -> response) : Backend := {|
  post_response _ := created "abc";
  status_response := status;
  results_response := results;
  duration := lag
|}.

(** A backend whose creation answer is [resp]. *)
Definition creating (resp : response) : Backend := {|
  post_response _ := resp;
  status_response _ := status_body "COMPLETED";
  results_response _ := ok events;
  duration := lag
|}.

(** The status endpoint answers 404 with a JSON object that has no status. *)
Definition lost : Backend :=
  following (λ _, Response 404 (Some (PDict [("message", PStr "not found")])))
    (λ _, ok events).

Definition basic_client : QRadar := {|
  console := "qradar.example.com";
  proxy := Some "proxy.example.com:8080";
  timeout := 0;
  debug := false;
  cleanup_results := false;
  headers := <[ "password" := "hunter2" ]>
               (<[ "username" := "admin" ]> {[ "Accept" := "application/json" ]})
|}.

End Sample.

Import Sample.

(** * Properties *)

(** One step of a method: the binds and the primitives on values unfolded. *)
Ltac run_step :=
  unfold mbind, M_bind, mret, M_ret, raise, _log, resp_json, py_get, py_values,
    py_first; simpl.


(** ** Construction *)

Section Construction.

Variables (console : string) (username password token proxy : option string).
Variables (timeout : Z) (debug cleanup_results : bool).

Local Abbreviation construct :=
  (__init__ console username password token proxy timeout debug cleanup_results).

Lemma basic_pair_spec u p :
  basic_pair u p ↔ truthy_str u && truthy_str p = true.
Proof. unfold basic_pair. rewrite andb_true_iff. tauto. Qed.

(** C9. Construction with neither a complete basic pair nor a token raises
    the "No credentials supplied" exception and leaves the world as it was
    (no request is in the history); construction with a complete basic pair
    or with a token returns a client, again without touching the world. *)
Theorem init_credentials (w : World) :
  (¬ basic_pair username password → truthy_str token = false →
     construct w = (Raise NoCredentials, w)) ∧
  (basic_pair username password ∨ truthy_str token = true →
     ∃ self, construct w = (Return self, w)).
Proof.
  unfold __init__. split.
  - intros Hb Ht. rewrite basic_pair_spec in Hb.
    apply not_true_is_false in Hb. rewrite Hb, Ht. reflexivity.
  - intros [Hb | Ht].
    + apply basic_pair_spec in Hb. rewrite Hb. eexists. reflexivity.
    + destruct (truthy_str username && truthy_str password);
        [| rewrite Ht]; eexists; reflexivity.
Qed.

(** C10. A constructed client carries exactly one kind of credentials: with
    a complete basic pair the headers are Accept, username and password and
    there is no SEC header, whether or not a token was passed; without one
    the token is non-empty and the headers are Accept and SEC, with neither
    username nor password. *)
Theorem init_headers (w w' : World) (self : QRadar) :
  construct w = (Return self, w') →
  (basic_pair username password →
     headers self = <[ "password" := default "" password ]>
                      (<[ "username" := default "" username ]>
                         {[ "Accept" := "application/json" ]}) ∧
     headers self !! "SEC" = None) ∧
  (¬ basic_pair username password →
     truthy_str token = true ∧
     headers self = <[ "SEC" := default "" token ]> {[ "Accept" := "application/json" ]} ∧
     headers self !! "username" = None ∧ headers self !! "password" = None).
Proof.
  unfold __init__. intros Hrun. split; intros Hb.
  - apply basic_pair_spec in Hb. rewrite Hb in Hrun.
    injection Hrun as <- _. simpl. split; [reflexivity |].
    by simplify_map_eq.
  - rewrite basic_pair_spec in Hb. apply not_true_is_false in Hb.
    rewrite Hb in Hrun. destruct (truthy_str token); [| discriminate].
    injection Hrun as <- _. simpl. by simplify_map_eq.
Qed.

End Construction.

Lemma init_credentials_witness :
  __init__ "qradar.example.com" None None None None 10 false true w0
    = (Raise NoCredentials, w0) ∧
  ∃ self, __init__ "qradar.example.com" (Some "admin") None (Some "s3cr3t") None
            10 false true w0 = (Return self, w0).
Proof.
  split.
  - apply (proj1 (init_credentials "qradar.example.com" None None None None
                    10 false true w0)).
    + intros [Hu _]. discriminate Hu.
    + reflexivity.
  - apply (proj2 (init_credentials "qradar.example.com" (Some "admin") None
                    (Some "s3cr3t") None 10 false true w0)).
    right. reflexivity.
Defined.

Lemma init_headers_witness :
  ∃ self,
    __init__ "qradar.example.com" (Some "admin") (Some "hunter2") (Some "s3cr3t") None
      10 false true w0 = (Return self, w0) ∧
    headers self !! "username" = Some "admin" ∧ headers self !! "SEC" = None.
Proof.
  eexists. split; [reflexivity |].
  destruct (init_headers "qradar.example.com" (Some "admin") (Some "hunter2")
              (Some "s3cr3t") None 10 false true w0 w0 _ eq_refl) as [Hbasic _].
  destruct Hbasic as [Hh Hsec]; [split; reflexivity |].
  split; [| exact Hsec].
  rewrite Hh. reflexivity.
Defined.

(** ** Query composition *)

Lemma append_assoc (a b c : string) : (a +:+ b) +:+ c = a +:+ (b +:+ c).
Proof.
  induction a as [| x a IH]; [reflexivity |].
  change (String x ((a +:+ b) +:+ c) = String x (a +:+ (b +:+ c))).
  by rewrite IH.
Qed.

Lemma append_empty_r (a : string) : a +:+ "" = a.
Proof.
  induction a as [| x a IH]; [reflexivity |].
  change (String x (a +:+ "") = String x a). by rewrite IH.
Qed.

Lemma priority_guard (p : string) :
  negb (bool_decide (p = "")) && bool_decide (p ∈ ["LOW"; "NORMAL"; "HIGH"])
  = bool_decide (p ∈ ["LOW"; "NORMAL"; "HIGH"]).
Proof.
  destruct (bool_decide_reflect (p ∈ ["LOW"; "NORMAL"; "HIGH"])) as [Hin | Hout].
  - rewrite andb_true_r. apply negb_true_iff, bool_decide_eq_false.
    intros ->. revert Hin.
    apply (proj1 (bool_decide_eq_false ("" ∈ ["LOW"; "NORMAL"; "HIGH"]))).
    reflexivity.
  - apply andb_false_r.
Qed.

Section Composition.

Context (backend : Backend) `{PyFloat}.

(** What [build_query] returns: the base text and the three clauses, and the
    world as it was. *)
Lemma build_query_run aql start_time end_time limit priority w :
  build_query aql start_time end_time limit priority w
  = (Return (aql +:+ limit_clause limit
                 +:+ time_clause (Datetime (clock w)) start_time end_time
                 +:+ priority_clause priority), w).
Proof.
  unfold build_query, limit_clause, time_clause, priority_clause.
  destruct limit as [n |]; [destruct (n =? 0) |];
    destruct start_time as [st |]; [destruct end_time as [et |] | | destruct end_time as [et |] | | destruct end_time as [et |] |];
    destruct priority as [p |]; try rewrite priority_guard;
    try destruct (bool_decide (p ∈ ["LOW"; "NORMAL"; "HIGH"]));
    simpl; unfold mbind, M_bind, mret, M_ret, datetime_now; simpl;
    rewrite ?append_assoc, ?append_empty_r; reflexivity.
Qed.

(** C5. The composed query is the base text followed by the limit clause,
    the time-window clause and the priority clause, in this order, whatever
    modifiers are passed; the clause of an omitted modifier is empty, and
    with all three omitted the query is the base text. *)
Theorem query_clause_order aql start_time end_time limit priority w :
  build_query aql start_time end_time limit priority w
  = (Return (aql +:+ limit_clause limit
                 +:+ time_clause (Datetime (clock w)) start_time end_time
                 +:+ priority_clause priority), w)
  ∧ limit_clause None = ""
  ∧ time_clause (Datetime (clock w)) None end_time = ""
  ∧ priority_clause None = ""
  ∧ build_query aql None None None None w = (Return aql, w).
Proof.
  split; [apply build_query_run |].
  repeat split; reflexivity.
Qed.

(** C6. A priority among LOW, NORMAL and HIGH appends the clause
    PARAMETERS PRIORITY='<priority>' to what the other modifiers give; any
    other priority changes nothing and raises nothing, so that alone it
    leaves the base text. *)
Theorem priority_permissive aql start_time end_time limit p w :
  (p ∈ ["LOW"; "NORMAL"; "HIGH"] →
     ∃ q, build_query aql start_time end_time limit None w = (Return q, w) ∧
          build_query aql start_time end_time limit (Some p) w
          = (Return (q +:+ nl +:+ " PARAMETERS PRIORITY='" +:+ p +:+ "'"), w)) ∧
  (p ∉ ["LOW"; "NORMAL"; "HIGH"] →
     build_query aql start_time end_time limit (Some p) w
     = build_query aql start_time end_time limit None w ∧
     build_query aql None None None (Some p) w = (Return aql, w)).
Proof.
  split; intros Hp.
  - eexists. split; [apply build_query_run |].
    rewrite build_query_run. unfold priority_clause.
    rewrite bool_decide_eq_true_2 by done.
    by rewrite !append_empty_r, !append_assoc.
  - rewrite !build_query_run. unfold priority_clause.
    rewrite bool_decide_eq_false_2 by done.
    split; [reflexivity |]. simpl. by rewrite !append_empty_r.
Qed.

(** C7. With a start time the query gets one clause START <s> STOP <e>
    between the limit and the priority clauses: <s> is the text of the float
    [start_time.timestamp() * 1000], <e> the text of the integer
    [int(t.timestamp() * 1000)] for [t] the end time when given and the
    reading of the wall clock otherwise. Without a start time there is no
    such clause, whatever the end time. *)
Theorem time_window aql start_time end_time limit priority w :
  build_query aql (Some start_time) end_time limit priority w
  = (Return (aql +:+ limit_clause limit
                 +:+ (nl +:+ " START " +:+ float_str (fmul (timestamp start_time) 1000)
                         +:+ " STOP "
                         +:+ str_int (float_int (fmul (timestamp
                               match end_time with
                               | Some t => t
                               | None => Datetime (clock w)
                               end) 1000)))
                 +:+ priority_clause priority), w)
  ∧ build_query aql None end_time limit priority w
    = (Return (aql +:+ limit_clause limit +:+ priority_clause priority), w).
Proof.
  rewrite !build_query_run. split.
  - unfold time_clause. destruct end_time; reflexivity.
  - reflexivity.
Qed.

End Composition.

Lemma priority_permissive_witness :
  build_query "SELECT 1" None None (Some 10) (Some "HIGH") w0
    = (Return ("SELECT 1" +:+ nl +:+ " LIMIT 10" +:+ nl +:+ " PARAMETERS PRIORITY='HIGH'"), w0)
  ∧ build_query "SELECT 1" None None None (Some "URGENT") w0 = (Return "SELECT 1", w0).
Proof.
  split.
  - destruct (proj1 (priority_permissive "SELECT 1" None None (Some 10) "HIGH" w0))
      as (q & Hq & Hrun).
    + apply (bool_decide_eq_true_1 ("HIGH" ∈ ["LOW"; "NORMAL"; "HIGH"])). reflexivity.
    + rewrite Hrun. vm_compute in Hq. injection Hq as <-. reflexivity.
  - apply (proj2 (priority_permissive "SELECT 1" None None None "URGENT" w0)).
    apply (proj1 (bool_decide_eq_false ("URGENT" ∈ ["LOW"; "NORMAL"; "HIGH"]))).
    reflexivity.
Defined.

(** ** Submission, fetch and the result envelope *)

Section Requests.

Context (backend : Backend) `{PyFloat}.

Lemma send_run r w :
  send backend r w = (Return (respond backend (trace w) r), requested backend w r).
Proof. reflexivity. Qed.

Lemma sleep_run s w : sleep backend s w = (Return tt, slept backend w s).
Proof. reflexivity. Qed.

Lemma trace_requested w r : trace (requested backend w r) = EvRequest r :: trace w.
Proof. reflexivity. Qed.

Lemma trace_slept w s : trace (slept backend w s) = EvSleep s :: trace w.
Proof. reflexivity. Qed.

Lemma bind_return {A B} (m : M A) (f : A → M B) w a w' :
  m w = (Return a, w') → (m ≫= f) w = f a w'.
Proof. intros Hm. unfold mbind, M_bind. by rewrite Hm. Qed.

Lemma bind_raise {A B} (m : M A) (f : A → M B) w e w' :
  m w = (Raise e, w') → (m ≫= f) w = (Raise e, w').
Proof. intros Hm. unfold mbind, M_bind. by rewrite Hm. Qed.

Lemma start_search_ok self query w d :
  status_code (post_response backend (count is_post (trace w))) = 201 →
  json_body (post_response backend (count is_post (trace w))) = Some (PDict d) →
  _start_search backend self query w
  = (Return (default PNone (assoc_get "search_id" d)),
     requested backend w (post_search self query)).
Proof.
  intros Hcode Hbody. unfold _start_search. run_step.
  change (respond backend (trace w) (post_search self query))
    with (post_response backend (count is_post (trace w))).
  rewrite Hcode. simpl. rewrite Hbody. reflexivity.
Qed.

(** C8. [_start_search] issues the creation request and nothing else. On a
    201 whose body is a JSON object it returns the object's search_id; it
    returns only on a 201; on any other status it raises the "Cannot start
    search" exception at once, and so does [search], whose history then ends
    with the creation request: no retry, no further request. *)
Theorem start_search_created self query w :
  let resp := post_response backend (count is_post (trace w)) in
  let w' := requested backend w (post_search self query) in
  (status_code resp = 201 → ∀ d, json_body resp = Some (PDict d) →
     _start_search backend self query w
     = (Return (default PNone (assoc_get "search_id" d)), w')) ∧
  (∀ v w'', _start_search backend self query w = (Return v, w'') →
     status_code resp = 201) ∧
  (status_code resp ≠ 201 →
     _start_search backend self query w = (Raise CannotStartSearch, w') ∧
     ∀ fuel aql start_time end_time limit priority,
       build_query aql start_time end_time limit priority w = (Return query, w) →
       search backend fuel self aql start_time end_time limit priority w
       = (Raise CannotStartSearch, w')).
Proof.
  intros resp w'.
  assert (Hresp : respond backend (trace w) (post_search self query) = resp)
    by reflexivity.
  split; [| split].
  - intros Hcode d Hbody. by apply start_search_ok.
  - intros v w''. unfold _start_search. run_step. rewrite Hresp.
    destruct (status_code resp =? 201) eqn:Hcode; simpl; [lia | discriminate].
  - intros Hcode. apply Z.eqb_neq in Hcode. split.
    + unfold _start_search. run_step. rewrite Hresp, Hcode. reflexivity.
    + intros fuel aql st et lim prio Hq. unfold search. run_step. rewrite Hq.
      unfold _start_search. run_step. rewrite Hresp, Hcode. reflexivity.
Qed.

Section Fetch.

Variables (self : QRadar) (search_id : pyval).

Local Abbreviation fetch := (get_results self search_id).

Lemma get_results_answer w :
  respond backend (trace w) fetch
  = results_response backend (count is_results_get (trace w)).
Proof. reflexivity. Qed.

(** The materialisation of a 200 answer. *)
Lemma get_results_ok fuel attempt w body :
  results_response backend (count is_results_get (trace w)) = Response 200 (Some body) →
  _get_results backend (S fuel) self search_id attempt w
  = (body ← py_values body; py_first body) (requested backend w fetch).
Proof.
  intros Hresp. simpl. run_step. rewrite get_results_answer, Hresp.
  simpl. destruct body; reflexivity.
Qed.

(** One failed attempt within the budget: a sleep of 5 seconds, then again. *)
Lemma get_results_again fuel attempt w :
  status_code (results_response backend (count is_results_get (trace w))) ≠ 200 →
  attempt <= 10 →
  _get_results backend (S fuel) self search_id attempt w
  = _get_results backend fuel self search_id (attempt + 1)
      (slept backend (requested backend w fetch) 5).
Proof.
  intros Hcode Hatt. simpl. run_step. rewrite get_results_answer.
  apply Z.eqb_neq in Hcode. rewrite Hcode. simpl.
  apply Z.leb_le in Hatt. rewrite Hatt. reflexivity.
Qed.

(** One failed attempt beyond the budget. *)
Lemma get_results_give_up fuel attempt w :
  status_code (results_response backend (count is_results_get (trace w))) ≠ 200 →
  10 < attempt →
  _get_results backend (S fuel) self search_id attempt w
  = (Raise CouldNotLoadResults, requested backend w fetch).
Proof.
  intros Hcode Hatt. simpl. run_step. rewrite get_results_answer.
  apply Z.eqb_neq in Hcode. rewrite Hcode. simpl.
  apply Z.leb_gt in Hatt. rewrite Hatt. reflexivity.
Qed.

Lemma count_retried p n s w :
  count p (trace (retried backend n fetch s w))
  = (n * (count p [EvSleep s; EvRequest fetch]) + count p (trace w))%nat.
Proof.
  revert w. induction n as [| n IH]; intros w; [reflexivity |].
  simpl retried. rewrite IH, trace_slept, trace_requested.
  unfold count. simpl. destruct (p (EvSleep s)), (p (EvRequest fetch)); simpl; lia.
Qed.

Lemma results_gets_retried n s w :
  count is_results_get (trace (retried backend n fetch s w))
  = (count is_results_get (trace w) + n)%nat.
Proof. rewrite count_retried. unfold count at 1. simpl. lia. Qed.

Lemma sleeps_retried n s w :
  count is_sleep (trace (retried backend n fetch s w))
  = (count is_sleep (trace w) + n)%nat.
Proof. rewrite count_retried. unfold count at 1. simpl. lia. Qed.

(** [n] failed attempts in a row, all within the budget. *)
Lemma get_results_retry n : ∀ fuel attempt w,
  (∀ k, (k < n)%nat →
     status_code (results_response backend (count is_results_get (trace w) + k)) ≠ 200) →
  attempt + Z.of_nat n <= 11 →
  _get_results backend (n + fuel) self search_id attempt w
  = _get_results backend fuel self search_id (attempt + Z.of_nat n)
      (retried backend n fetch 5 w).
Proof.
  induction n as [| n IH]; intros fuel attempt w Hfail Hatt.
  - simpl. by rewrite Z.add_0_r.
  - change (S n + fuel)%nat with (S (n + fuel)).
    rewrite get_results_again.
    + rewrite IH.
      * simpl retried. f_equal. lia.
      * intros k Hk. rewrite trace_slept, trace_requested.
        change (count is_results_get (EvSleep 5 :: EvRequest fetch :: trace w))
          with (S (count is_results_get (trace w))).
        replace (S (count is_results_get (trace w)) + k)%nat
          with (count is_results_get (trace w) + S k)%nat by lia.
        apply Hfail. lia.
      * lia.
    + specialize (Hfail O). rewrite Nat.add_0_r in Hfail. apply Hfail. lia.
    + lia.
Qed.

Lemma results_first_value_aux fuel attempt w d :
  results_response backend (count is_results_get (trace w)) = Response 200 (Some (PDict d)) →
  _get_results backend (S fuel) self search_id attempt w
  = (match d with
     | (_, rows) :: _ => Return rows
     | [] => Raise IndexError
     end, requested backend w fetch).
Proof.
  intros Hresp. rewrite (get_results_ok _ _ _ _ Hresp). run_step.
  destruct d as [| [k v] d]; reflexivity.
Qed.

(** C4. The result of a 200 answer whose body is a JSON object is the first
    value of the object, however many keys it has; on the empty object the
    indexing fails and [_get_results] raises IndexError instead of returning
    anything. *)
Theorem results_first_value fuel attempt w d :
  results_response backend (count is_results_get (trace w)) = Response 200 (Some (PDict d)) →
  _get_results backend (S fuel) self search_id attempt w
  = (match d with
     | (_, rows) :: _ => Return rows
     | [] => Raise IndexError
     end, requested backend w fetch).
Proof.
  intros Hresp. rewrite (get_results_ok _ _ _ _ Hresp). run_step.
  destruct d as [| [k v] d]; reflexivity.
Qed.

(** [n] failed attempts, [n] at most 11, then a 200 answer with a JSON
    object: the first value of the object, after [n + 1] requests. *)
Lemma get_results_eventually n fuel w d :
  (n <= 11)%nat →
  (∀ k, (k < n)%nat →
     status_code (results_response backend (count is_results_get (trace w) + k)) ≠ 200) →
  results_response backend (count is_results_get (trace w) + n)
    = Response 200 (Some (PDict d)) →
  _get_results backend (n + S fuel) self search_id 0 w
  = (match d with
     | (_, rows) :: _ => Return rows
     | [] => Raise IndexError
     end, requested backend (retried backend n fetch 5 w) fetch).
Proof.
  intros Hn Hfail Hok.
  rewrite get_results_retry by (done || lia).
  apply results_first_value_aux.
  by rewrite results_gets_retried.
Qed.

(** C1. What the fetch does when the results endpoint fails 11 times in a
    row: it sleeps 5 seconds after each failure and issues a 12th request.
    When that one is answered 200 its rows are returned; when it fails too,
    the "Could not load search results" exception is raised. Either way the
    history holds 12 requests to the results endpoint and 11 sleeps, where
    a budget of 10 retries allows 11 requests and raises after the 11th
    failure. *)
Theorem fetch_retries_eleven_times fuel w :
  let k0 := count is_results_get (trace w) in
  let w' := requested backend (retried backend 11 fetch 5 w) fetch in
  (∀ k, (k < 11)%nat → status_code (results_response backend (k0 + k)) ≠ 200) →
  (∀ d, results_response backend (k0 + 11) = Response 200 (Some (PDict d)) →
     _get_results backend (12 + fuel) self search_id 0 w
     = (match d with
        | (_, rows) :: _ => Return rows
        | [] => Raise IndexError
        end, w')) ∧
  (status_code (results_response backend (k0 + 11)) ≠ 200 →
     _get_results backend (12 + fuel) self search_id 0 w
     = (Raise CouldNotLoadResults, w')) ∧
  count is_results_get (trace w') = (k0 + 12)%nat ∧
  count is_sleep (trace w') = (count is_sleep (trace w) + 11)%nat.
Proof.
  intros k0 w' Hfail. split; [| split; [| split]].
  - intros d Hok.
    change (12 + fuel)%nat with (11 + S fuel)%nat.
    by apply get_results_eventually.
  - intros Hcode.
    change (12 + fuel)%nat with (11 + S fuel)%nat.
    rewrite get_results_retry by (done || lia).
    apply get_results_give_up; [| lia].
    by rewrite results_gets_retried.
  - unfold w'. rewrite trace_requested.
    change (count is_results_get (EvRequest fetch :: ?t))
      with (S (count is_results_get t)).
    rewrite results_gets_retried. unfold k0. lia.
  - unfold w'. rewrite trace_requested.
    change (count is_sleep (EvRequest fetch :: ?t)) with (count is_sleep t).
    by rewrite sleeps_retried.
Qed.

End Fetch.

End Requests.

Lemma start_search_created_witness :
  _start_search (flaky 0) token_client "SELECT 1" w0
    = (Return (PStr "abc"), requested (flaky 0) w0 (post_search token_client "SELECT 1"))
  ∧ search refusing 20 token_client "SELECT 1" None None None None w0
    = (Raise CannotStartSearch, requested refusing w0 (post_search token_client "SELECT 1")).
Proof.
  split.
  - apply (proj1 (start_search_created (flaky 0) token_client "SELECT 1" w0)
             eq_refl [("search_id", PStr "abc")] eq_refl).
  - apply (proj2 (proj2 (start_search_created refusing token_client "SELECT 1" w0))).
    + simpl. lia.
    + reflexivity.
Defined.

Lemma results_first_value_witness :
  _get_results (flaky 0) 1 token_client (PStr "abc") 0 w0
    = (Return rows, requested (flaky 0) w0 (get_results token_client (PStr "abc")))
  ∧ _get_results hollow 1 token_client (PStr "abc") 0 w0
    = (Raise IndexError, requested hollow w0 (get_results token_client (PStr "abc"))).
Proof.
  split.
  - apply (results_first_value (flaky 0) token_client (PStr "abc") 0 0 w0
             [("events", rows)] eq_refl).
  - apply (results_first_value hollow token_client (PStr "abc") 0 0 w0 [] eq_refl).
Defined.

Lemma fetch_retries_eleven_times_witness :
  ∃ w', _get_results (flaky 11) 12 token_client (PStr "abc") 0 w0 = (Return rows, w')
        ∧ count is_results_get (trace w') = 12%nat.
Proof.
  eexists.
  assert (Hfail : ∀ k, (k < 11)%nat →
            status_code (results_response (flaky 11) (0 + k)) ≠ 200).
  { intros k Hk. simpl. apply Nat.ltb_lt in Hk. rewrite Hk. discriminate. }
  destruct (fetch_retries_eleven_times (flaky 11) token_client (PStr "abc") 0 w0 Hfail)
    as (Hok & _ & Hcount & _).
  split; [apply (Hok [("events", rows)] eq_refl) | exact Hcount].
Defined.

(** ** The poll wait loop *)

Section Polling.

Context (backend : Backend) `{PyFloat}.
Variables (self : QRadar) (search_id : pyval) (search_start timeout_at : Z).

Local Abbreviation poll := (get_search self search_id).
Local Abbreviation loop fuel :=
  (wait_loop backend fuel self search_id search_start timeout_at).

Lemma reports_status w s :
  reports (status_response backend (count is_status_get (trace w))) s →
  _get_status backend self search_id w = (Return (PStr s), requested backend w poll).
Proof.
  intros (d & Hbody & Hstatus). unfold _get_status. run_step.
  change (respond backend (trace w) poll)
    with (status_response backend (count is_status_get (trace w))).
  rewrite Hbody. simpl. rewrite Hstatus. reflexivity.
Qed.

(** The condition of the loop is false: the [else] branch deletes the job and
    raises. *)
Lemma loop_deadline fuel w :
  timeout_at <= clock w →
  loop (S fuel) w = (Raise (SearchTimedOut (timeout self)), requested backend w (delete_search self search_id)).
Proof.
  intros Hlate. simpl. run_step.
  apply Z.ltb_ge in Hlate. rewrite Hlate. reflexivity.
Qed.

(** A poll that reports a status that is none of the three the loop tests:
    a sleep of 5 seconds and back to the condition. *)
Lemma loop_pending fuel w s :
  clock w < timeout_at →
  reports (status_response backend (count is_status_get (trace w))) s →
  s ≠ "CANCELED" → s ≠ "ERROR" → s ≠ "COMPLETED" →
  loop (S fuel) w = loop fuel (slept backend (requested backend w poll) 5).
Proof.
  intros Hearly Hrep Hc He Hd. simpl.
  unfold mbind at 1, M_bind at 1, time_time.
  apply Z.ltb_lt in Hearly. rewrite Hearly.
  unfold mbind at 1, M_bind at 1. rewrite (reports_status _ _ Hrep).
  run_step. rewrite !bool_decide_eq_false_2 by done. reflexivity.
Qed.

Lemma loop_completed fuel w :
  clock w < timeout_at →
  reports (status_response backend (count is_status_get (trace w))) "COMPLETED" →
  loop (S fuel) w = (Return tt, requested backend w poll).
Proof.
  intros Hearly Hrep. simpl.
  unfold mbind at 1, M_bind at 1, time_time.
  apply Z.ltb_lt in Hearly. rewrite Hearly.
  unfold mbind at 1, M_bind at 1. rewrite (reports_status _ _ Hrep).
  reflexivity.
Qed.

Lemma loop_failed fuel w s :
  clock w < timeout_at →
  reports (status_response backend (count is_status_get (trace w))) s →
  s = "CANCELED" ∨ s = "ERROR" →
  loop (S fuel) w = (Raise (SearchFailed (PStr s)), requested backend w poll).
Proof.
  intros Hearly Hrep Hs. simpl.
  unfold mbind at 1, M_bind at 1, time_time.
  apply Z.ltb_lt in Hearly. rewrite Hearly.
  unfold mbind at 1, M_bind at 1. rewrite (reports_status _ _ Hrep).
  destruct Hs as [-> | ->]; reflexivity.
Qed.

Lemma clock_requested w r :
  clock (requested backend w r) = clock w + duration backend (length (trace w)).
Proof. reflexivity. Qed.

Lemma clock_slept w s :
  clock (slept backend w s) = clock w + s * second + duration backend (length (trace w)).
Proof. reflexivity. Qed.

Lemma status_gets_round w :
  count is_status_get (trace (slept backend (requested backend w poll) 5))
  = S (count is_status_get (trace w)).
Proof. reflexivity. Qed.

(** C3. The loop polls, and sleeps 5 seconds between two polls. Where no
    event takes longer than [dmax] and the deadline is more than two sleeps
    and four such delays away: on the statuses RUNNING, RUNNING, COMPLETED it
    returns after 3 polls, the history growing by poll, sleep, poll, sleep,
    poll; on RUNNING followed by ERROR or CANCELED it raises the "Search did
    not finish, state is" exception after 2 polls, the history growing by
    poll, sleep, poll, with no delete in it. *)
Theorem wait_loop_transitions fuel w dmax :
  let k0 := count is_status_get (trace w) in
  let round w := slept backend (requested backend w poll) 5 in
  (∀ i, 0 <= duration backend i <= dmax) →
  clock w + 2 * (5 * second) + 4 * dmax < timeout_at →
  reports (status_response backend k0) "RUNNING" →
  (reports (status_response backend (k0 + 1)) "RUNNING" →
   reports (status_response backend (k0 + 2)) "COMPLETED" →
     loop (3 + fuel) w = (Return tt, requested backend (round (round w)) poll)
     ∧ trace (requested backend (round (round w)) poll)
       = ([EvRequest poll; EvSleep 5; EvRequest poll; EvSleep 5; EvRequest poll]
            ++ trace w)%list)
  ∧ (∀ s, s = "ERROR" ∨ s = "CANCELED" →
     reports (status_response backend (k0 + 1)) s →
       loop (2 + fuel) w = (Raise (SearchFailed (PStr s)), requested backend (round w) poll)
       ∧ trace (requested backend (round w) poll)
         = ([EvRequest poll; EvSleep 5; EvRequest poll] ++ trace w)%list
       ∧ count is_delete (trace (requested backend (round w) poll))
         = count is_delete (trace w)).
Proof.
  intros k0 round Hdur Hfar Hrun0.
  assert (Hd0 := Hdur (length (trace w))).
  assert (Hd1 := Hdur (length (trace (requested backend w poll)))).
  assert (Hd2 := Hdur (length (trace (round w)))).
  assert (Hd3 := Hdur (length (trace (requested backend (round w) poll)))).
  assert (Hc1 : clock (round w) < timeout_at).
  { unfold round. rewrite clock_slept, clock_requested. unfold second in *. lia. }
  assert (Hc2 : clock (round (round w)) < timeout_at).
  { unfold round in *. repeat (rewrite clock_slept || rewrite clock_requested).
    unfold second in *. lia. }
  assert (Hc0 : clock w < timeout_at).
  { unfold round in Hc1. rewrite clock_slept, clock_requested in Hc1.
    unfold second in *. lia. }
  split.
  - intros Hrun1 Hdone. split; [| reflexivity].
    change (3 + fuel)%nat with (S (S (S fuel))).
    rewrite (loop_pending _ _ "RUNNING") by done. fold (round w).
    rewrite (loop_pending _ _ "RUNNING"); try done.
    + fold (round (round w)). apply loop_completed; [done |].
      unfold round. rewrite !status_gets_round. fold k0.
      by replace (S (S k0)) with (k0 + 2)%nat by lia.
    + unfold round. rewrite status_gets_round. fold k0.
      by replace (S k0) with (k0 + 1)%nat by lia.
  - intros s Hs Hrep. split; [| split; reflexivity].
    change (2 + fuel)%nat with (S (S fuel)).
    rewrite (loop_pending _ _ "RUNNING") by done. fold (round w).
    apply loop_failed; [done | | tauto].
    unfold round. rewrite status_gets_round. fold k0.
    by replace (S k0) with (k0 + 1)%nat by lia.
Qed.

End Polling.

Lemma lag_bounds : ∀ i, 0 <= lag i <= 200000.
Proof. intros i. unfold lag. lia. Qed.

Lemma scripted_reports l last k :
  reports (status_response (scripted l last) k) (nth k l last).
Proof. eexists. split; reflexivity. Qed.

Lemma wait_loop_transitions_witness :
  (∃ w', wait_loop (scripted ["RUNNING"; "RUNNING"] "COMPLETED") 3 token_client (PStr "abc")
           (clock w0) (clock w0 + 60 * second) w0 = (Return tt, w')
         ∧ count is_status_get (trace w') = 3%nat)
  ∧ (∃ w', wait_loop (scripted ["RUNNING"] "ERROR") 2 token_client (PStr "abc")
             (clock w0) (clock w0 + 60 * second) w0
           = (Raise (SearchFailed (PStr "ERROR")), w')
           ∧ count is_delete (trace w') = 0%nat).
Proof.
  split.
  - destruct (wait_loop_transitions (scripted ["RUNNING"; "RUNNING"] "COMPLETED")
                token_client (PStr "abc") (clock w0) (clock w0 + 60 * second)
                0 w0 200000) as [Hdone _].
    + apply lag_bounds.
    + vm_compute. reflexivity.
    + apply (scripted_reports ["RUNNING"; "RUNNING"] "COMPLETED" 0).
    + destruct Hdone as [Hrun Htrace].
      * apply (scripted_reports ["RUNNING"; "RUNNING"] "COMPLETED" 1).
      * apply (scripted_reports ["RUNNING"; "RUNNING"] "COMPLETED" 2).
      * eexists. split; [exact Hrun |]. rewrite Htrace. reflexivity.
  - destruct (wait_loop_transitions (scripted ["RUNNING"] "ERROR")
                token_client (PStr "abc") (clock w0) (clock w0 + 60 * second)
                0 w0 200000) as [_ Hfailed].
    + apply lag_bounds.
    + vm_compute. reflexivity.
    + apply (scripted_reports ["RUNNING"] "ERROR" 0).
    + destruct (Hfailed "ERROR") as (Hrun & _ & Hdel).
      * left. reflexivity.
      * apply (scripted_reports ["RUNNING"] "ERROR" 1).
      * eexists. split; [exact Hrun | exact Hdel].
Defined.

(** * Further properties of the client *)

(** ** One step of each method *)

Section Steps.

Context (backend : Backend) `{PyFloat}.
Variables (self : QRadar) (search_id : pyval).

Local Abbreviation poll := (get_search self search_id).
Local Abbreviation fetch := (get_results self search_id).
Local Abbreviation cancel := (delete_search self search_id).

Lemma trace_retried n r s w :
  trace (retried backend n r s w) = (rounds n r s ++ trace w)%list.
Proof.
  revert w. induction n as [| n IH]; intros w; [reflexivity |].
  simpl. rewrite IH, trace_slept, trace_requested.
  by rewrite <- app_assoc.
Qed.

(** One evaluation of the condition of the wait loop. *)
Lemma loop_step fuel search_start timeout_at w :
  wait_loop backend (S fuel) self search_id search_start timeout_at w
  = if clock w <? timeout_at then
      match judge (status_response backend (count is_status_get (trace w))) with
      | Pending =>
          wait_loop backend fuel self search_id search_start timeout_at
            (slept backend (requested backend w poll) 5)
      | Done => (Return tt, requested backend w poll)
      | Failed status => (Raise (SearchFailed status), requested backend w poll)
      | Broken e => (Raise e, requested backend w poll)
      end
    else (Raise (SearchTimedOut (timeout self)), requested backend w cancel).
Proof.
  simpl. unfold mbind at 1, M_bind at 1, time_time.
  destruct (clock w <? timeout_at); [| reflexivity].
  unfold _get_status, judge. run_step.
  change (respond backend (trace w) poll)
    with (status_response backend (count is_status_get (trace w))).
  destruct (json_body (status_response backend (count is_status_get (trace w))))
    as [[| | | | | | d] |]; try reflexivity.
  simpl.
  destruct (py_eq_str (default PNone (assoc_get "status" d)) "CANCELED"
            || py_eq_str (default PNone (assoc_get "status" d)) "ERROR");
    [reflexivity |].
  destruct (py_eq_str (default PNone (assoc_get "status" d)) "COMPLETED"); reflexivity.
Qed.

(** One call of [_get_results]. *)
Lemma fetch_step fuel attempt w :
  _get_results backend (S fuel) self search_id attempt w
  = let resp := results_response backend (count is_results_get (trace w)) in
    if status_code resp =? 200 then (unwrap resp, requested backend w fetch)
    else if attempt <=? 10 then
      _get_results backend fuel self search_id (attempt + 1)
        (slept backend (requested backend w fetch) 5)
    else (Raise CouldNotLoadResults, requested backend w fetch).
Proof.
  simpl. run_step.
  change (respond backend (trace w) fetch)
    with (results_response backend (count is_results_get (trace w))).
  destruct (status_code (results_response backend (count is_results_get (trace w))) =? 200);
    simpl.
  - unfold unwrap.
    destruct (json_body (results_response backend (count is_results_get (trace w))))
      as [[| | | | | | [| [k v] d]] |]; reflexivity.
  - destruct (attempt <=? 10); reflexivity.
Qed.

End Steps.

Section Whole.

Context (backend : Backend) `{PyFloat}.
Variable self : QRadar.

(** [_start_search] on the answer to the creation request. *)
Lemma start_step query w :
  _start_search backend self query w
  = let resp := post_response backend (count is_post (trace w)) in
    (if status_code resp =? 201 then created_id resp else Raise CannotStartSearch,
     requested backend w (post_search self query)).
Proof.
  unfold _start_search, created_id. run_step.
  change (respond backend (trace w) (post_search self query))
    with (post_response backend (count is_post (trace w))).
  destruct (status_code (post_response backend (count is_post (trace w))) =? 201);
    [| reflexivity].
  simpl.
  destruct (json_body (post_response backend (count is_post (trace w))))
    as [[] |]; reflexivity.
Qed.

(** [search] as the sequence of its phases. *)
Lemma search_step fuel aql start_time end_time limit priority w :
  let query := composed_query (Datetime (clock w)) aql start_time end_time limit priority in
  let resp := post_response backend (count is_post (trace w)) in
  let w1 := requested backend w (post_search self query) in
  search backend fuel self aql start_time end_time limit priority w
  = if status_code resp =? 201 then
      match created_id resp with
      | Return search_id =>
          match wait_loop backend fuel self search_id (clock w1)
                  (clock w1 + timeout self * 60 * second) w1 with
          | (Return _, w2) =>
              match _get_results backend fuel self search_id 0 w2 with
              | (Return rows, w3) =>
                  (Return rows,
                   if cleanup_results self
                   then requested backend w3 (delete_search self search_id)
                   else w3)
              | (Raise e, w3) => (Raise e, w3)
              | (OutOfFuel, w3) => (OutOfFuel, w3)
              end
          | (Raise e, w2) => (Raise e, w2)
          | (OutOfFuel, w2) => (OutOfFuel, w2)
          end
      | Raise e => (Raise e, w1)
      | OutOfFuel => (OutOfFuel, w1)
      end
    else (Raise CannotStartSearch, w1).
Proof.
  intros query resp w1. unfold search.
  rewrite (bind_return _ _ _ _ _ (build_query_run _ _ _ _ _ w)).
  fold (composed_query (Datetime (clock w)) aql start_time end_time limit priority).
  fold query.
  rewrite (bind_return (_log self) _ w tt w eq_refl).
  unfold mbind at 1, M_bind at 1. rewrite start_step. fold resp w1. cbv zeta.
  destruct (status_code resp =? 201); [| reflexivity].
  destruct (created_id resp) as [sid | e |]; try reflexivity.
  rewrite (bind_return (_log self) _ w1 tt w1 eq_refl).
  rewrite (bind_return time_time _ w1 (clock w1) w1 eq_refl).
  cbv zeta. unfold mbind at 1, M_bind at 1.
  destruct (wait_loop backend fuel self sid (clock w1)
              (clock w1 + timeout self * 60 * second) w1) as [[[] | e |] w2];
    try reflexivity.
  unfold mbind at 1, M_bind at 1.
  destruct (_get_results backend fuel self sid 0 w2) as [[rows | e |] w3];
    try reflexivity.
  destruct (cleanup_results self); reflexivity.
Qed.

End Whole.

(** ** The shape of the history of a search *)

Lemma count_app p (l1 l2 : list event) :
  count p (l1 ++ l2) = (count p l1 + count p l2)%nat.
Proof. unfold count. by rewrite List.filter_app, length_app. Qed.

Lemma count_none p (l : list event) :
  Forall (λ e, p e = false) l → count p l = 0%nat.
Proof.
  unfold count. induction 1 as [| e l He _ IH]; [reflexivity |].
  simpl. by rewrite He.
Qed.

Lemma count_polling p self search_id (l : list event) :
  p (EvRequest (get_search self search_id)) = false → p (EvSleep 5) = false →
  Forall (polling self search_id) l → count p l = 0%nat.
Proof.
  intros Hr Hs Hl. apply count_none.
  eapply Forall_impl; [exact Hl |]. by intros e [-> | ->].
Qed.

Lemma count_fetching p self search_id (l : list event) :
  p (EvRequest (get_results self search_id)) = false → p (EvSleep 5) = false →
  Forall (fetching self search_id) l → count p l = 0%nat.
Proof.
  intros Hr Hs Hl. apply count_none.
  eapply Forall_impl; [exact Hl |]. by intros e [-> | ->].
Qed.

Ltac phase_events :=
  repeat first [ apply List.Forall_nil
               | apply List.Forall_cons; [first [by left | by right] |] ].

Section Shape.

Context (backend : Backend) `{PyFloat}.
Variable self : QRadar.

(** The wait loop polls and sleeps 5 seconds, and ends with a delete exactly
    when it raises the time-out. *)
Lemma loop_shape search_id search_start timeout_at fuel : ∀ w,
  ∃ polls dels,
    trace (snd (wait_loop backend fuel self search_id search_start timeout_at w))
    = (dels ++ polls ++ trace w)%list
    ∧ Forall (polling self search_id) polls
    ∧ ((dels = [] ∧
        ∀ m, fst (wait_loop backend fuel self search_id search_start timeout_at w)
             ≠ Raise (SearchTimedOut m))
       ∨ (dels = [EvRequest (delete_search self search_id)] ∧
          fst (wait_loop backend fuel self search_id search_start timeout_at w)
          = Raise (SearchTimedOut (timeout self)))).
Proof.
  induction fuel as [| fuel IH]; intros w.
  - exists [], []. repeat split; [constructor |]. left. by split.
  - rewrite loop_step. destruct (clock w <? timeout_at).
    + destruct (judge _) as [| | status | e] eqn:Hjudge.
      * destruct (IH (slept backend (requested backend w (get_search self search_id)) 5))
          as (polls & dels & Htrace & Hpolls & Hdels).
        exists (polls ++ [EvSleep 5; EvRequest (get_search self search_id)])%list, dels.
        split; [| split; [| exact Hdels]].
        -- rewrite Htrace, trace_slept, trace_requested.
           by rewrite <- !app_assoc.
        -- apply Forall_app. split; [exact Hpolls |].
           phase_events.
      * exists [EvRequest (get_search self search_id)], [].
        split; [reflexivity |]. split; [phase_events |].
        left. by split.
      * exists [EvRequest (get_search self search_id)], [].
        split; [reflexivity |]. split; [phase_events |].
        left. by split.
      * exists [EvRequest (get_search self search_id)], [].
        split; [reflexivity |]. split; [phase_events |].
        left. split; [reflexivity |]. intros m. simpl.
        unfold judge in Hjudge. repeat case_match; congruence.
    + exists [], [EvRequest (delete_search self search_id)].
      split; [reflexivity |]. split; [constructor |]. by right.
Qed.

(** The fetch requests the results and sleeps 5 seconds, and never raises the
    time-out. *)
Lemma fetch_shape search_id fuel : ∀ attempt w,
  ∃ fetches,
    trace (snd (_get_results backend fuel self search_id attempt w))
    = (fetches ++ trace w)%list
    ∧ Forall (fetching self search_id) fetches
    ∧ ∀ m, fst (_get_results backend fuel self search_id attempt w)
           ≠ Raise (SearchTimedOut m).
Proof.
  induction fuel as [| fuel IH]; intros attempt w.
  - exists []. repeat split; [constructor | done].
  - rewrite fetch_step. cbv zeta.
    destruct (status_code _ =? 200).
    + exists [EvRequest (get_results self search_id)].
      split; [reflexivity |]. split; [phase_events |].
      intros m. simpl. unfold unwrap. repeat case_match; congruence.
    + destruct (attempt <=? 10).
      * destruct (IH (attempt + 1)
                    (slept backend (requested backend w (get_results self search_id)) 5))
          as (fetches & Htrace & Hfetches & Hout).
        exists (fetches ++ [EvSleep 5; EvRequest (get_results self search_id)])%list.
        split; [| split; [| exact Hout]].
        -- rewrite Htrace, trace_slept, trace_requested. by rewrite <- app_assoc.
        -- apply Forall_app. split; [exact Hfetches |].
           phase_events.
      * exists [EvRequest (get_results self search_id)].
        split; [reflexivity |]. split; [phase_events | done].
Qed.

(** Every run of [search]: the creation request, then polls, then fetches,
    then the delete when [cleans_up] says so. *)
Lemma search_run fuel aql start_time end_time limit priority w :
  let run := search backend fuel self aql start_time end_time limit priority w in
  let query := composed_query (Datetime (clock w)) aql start_time end_time limit priority in
  ∃ search_id polls fetches,
    trace (snd run)
    = ((if cleans_up self (fst run) then [EvRequest (delete_search self search_id)] else [])
         ++ fetches ++ polls ++ EvRequest (post_search self query) :: trace w)%list
    ∧ Forall (polling self search_id) polls
    ∧ Forall (fetching self search_id) fetches.
Proof.
  intros run query. unfold run. rewrite search_step. fold query.
  set (w1 := requested backend w (post_search self query)).
  destruct (status_code _ =? 201);
    [| by exists PNone, [], []; repeat split; constructor].
  destruct (created_id _) as [sid | e |] eqn:Hid.
  2: { exists PNone, [], []. split; [| by split; constructor].
       unfold created_id in Hid. repeat case_match; simplify_eq; reflexivity. }
  2: { by exists PNone, [], []; repeat split; constructor. }
  destruct (loop_shape sid (clock w1) (clock w1 + timeout self * 60 * second) fuel w1)
    as (polls & dels & Htrace & Hpolls & Hdels).
  destruct (wait_loop backend fuel self sid (clock w1)
              (clock w1 + timeout self * 60 * second) w1) as [[[] | e |] w2];
    simpl in Htrace, Hdels.
  - destruct Hdels as [[-> _] | [_ ?]]; [| discriminate].
    destruct (fetch_shape sid fuel 0 w2) as (fetches & Hftrace & Hfetches & Hout).
    destruct (_get_results backend fuel self sid 0 w2) as [[rows | e |] w3];
      simpl in Hftrace, Hout.
    + exists sid, polls, fetches. split; [| by split].
      simpl. destruct (cleanup_results self); simpl;
        rewrite ?trace_requested, Hftrace, Htrace; reflexivity.
    + exists sid, polls, fetches. split; [| by split].
      simpl. rewrite Hftrace, Htrace.
      destruct e; try reflexivity. by destruct (Hout minutes).
    + exists sid, polls, fetches. split; [| by split].
      simpl. by rewrite Hftrace, Htrace.
  - exists sid, polls, []. split; [| by split; [| constructor]].
    simpl. rewrite Htrace.
    destruct Hdels as [[-> Hno] | [-> Hyes]].
    + destruct e; try reflexivity. by destruct (Hno minutes).
    + by injection Hyes as ->.
  - exists sid, polls, []. split; [| by split; [| constructor]].
    simpl. rewrite Htrace.
    destruct Hdels as [[-> _] | [_ ?]]; [reflexivity | discriminate].
Qed.

End Shape.

Section History.

Context (backend : Backend) `{PyFloat}.
Variable self : QRadar.

(** X1. Whatever the backend answers and however the search ends, the events
    a search adds to the history are, in order: the creation request with
    the composed query, then status requests and 5-second sleeps for one
    search id, then results requests and 5-second sleeps for the same id,
    then at most one delete of that id. The creation request is the only
    POST. *)
Theorem search_history fuel aql start_time end_time limit priority w :
  let run := search backend fuel self aql start_time end_time limit priority w in
  let query := composed_query (Datetime (clock w)) aql start_time end_time limit priority in
  ∃ search_id polls fetches dels,
    trace (snd run)
    = (dels ++ fetches ++ polls ++ EvRequest (post_search self query) :: trace w)%list
    ∧ Forall (polling self search_id) polls
    ∧ Forall (fetching self search_id) fetches
    ∧ (dels = [] ∨ dels = [EvRequest (delete_search self search_id)])
    ∧ count is_post (trace (snd run)) = S (count is_post (trace w)).
Proof.
  intros run query.
  destruct (search_run backend self fuel aql start_time end_time limit priority w)
    as (sid & polls & fetches & Htrace & Hpolls & Hfetches).
  fold run query in Htrace.
  exists sid, polls, fetches,
    (if cleans_up self (fst run) then [EvRequest (delete_search self sid)] else []).
  split; [exact Htrace |]. split; [exact Hpolls |]. split; [exact Hfetches |].
  split; [destruct (cleans_up self (fst run)); auto |].
  rewrite Htrace, !count_app.
  rewrite (count_fetching is_post self sid fetches) by done.
  rewrite (count_polling is_post self sid polls) by done.
  destruct (cleans_up self (fst run)); reflexivity.
Qed.

(** X2. A search sends one delete when the wait loop times out and when it
    returns rows with [cleanup_results] set, and no delete otherwise: not
    after a refused creation, a job that reports CANCELED or ERROR, an
    unreadable answer or a fetch that gave up. *)
Theorem search_delete_count fuel aql start_time end_time limit priority w :
  let run := search backend fuel self aql start_time end_time limit priority w in
  count is_delete (trace (snd run))
  = (count is_delete (trace w) + if cleans_up self (fst run) then 1 else 0)%nat.
Proof.
  intros run.
  destruct (search_run backend self fuel aql start_time end_time limit priority w)
    as (sid & polls & fetches & Htrace & Hpolls & Hfetches).
  fold run in Htrace. rewrite Htrace, !count_app.
  rewrite (count_fetching is_delete self sid fetches) by done.
  rewrite (count_polling is_delete self sid polls) by done.
  change (count is_delete (EvRequest (post_search self ?q) :: trace w))
    with (count is_delete (trace w)).
  destruct (cleans_up self (fst run)); simpl; lia.
Qed.

Variable search_id : pyval.

(** The run of a fetch with enough fuel: some rounds of a failed request and
    a sleep, within the budget, and a last request. *)
Lemma fetch_run fuel : ∀ attempt w,
  (Z.to_nat (11 - attempt) < fuel)%nat →
  ∃ n, (n <= Z.to_nat (11 - attempt))%nat
       ∧ fst (_get_results backend fuel self search_id attempt w) ≠ OutOfFuel
       ∧ snd (_get_results backend fuel self search_id attempt w)
         = requested backend
             (retried backend n (get_results self search_id) 5 w)
             (get_results self search_id)
       ∧ (fst (_get_results backend fuel self search_id attempt w)
          = Raise CouldNotLoadResults → n = Z.to_nat (11 - attempt)).
Proof.
  induction fuel as [| fuel IH]; intros attempt w Hfuel; [lia |].
  rewrite fetch_step. cbv zeta.
  destruct (status_code _ =? 200).
  - exists O. split; [lia |]. split; [| split; [reflexivity |]];
      simpl; unfold unwrap; repeat case_match; congruence.
  - destruct (attempt <=? 10) eqn:Hatt.
    + apply Z.leb_le in Hatt.
      destruct (IH (attempt + 1)
                  (slept backend (requested backend w (get_results self search_id)) 5))
        as (n & Hn & Hout & Hworld & Hgave); [lia |].
      exists (S n). split; [lia |]. split; [exact Hout |]. split; [exact Hworld |].
      intros Hraise. specialize (Hgave Hraise). lia.
    + apply Z.leb_gt in Hatt.
      exists O. split; [lia |]. split; [done |]. split; [reflexivity | lia].
Qed.

(** X3. [_get_results] ends for every backend: from attempt [a], more than
    [11 - a] units of fuel are never used up, and the call adds at most
    [12 - a] results requests and [11 - a] sleeps to the history; from
    attempt 0, at most 12 requests and 11 sleeps. *)
Theorem fetch_bounded fuel attempt w :
  (Z.to_nat (11 - attempt) < fuel)%nat →
  let run := _get_results backend fuel self search_id attempt w in
  fst run ≠ OutOfFuel
  ∧ (count is_results_get (trace (snd run))
     <= count is_results_get (trace w) + S (Z.to_nat (11 - attempt)))%nat
  ∧ (count is_sleep (trace (snd run))
     <= count is_sleep (trace w) + Z.to_nat (11 - attempt))%nat.
Proof.
  intros Hfuel run.
  destruct (fetch_run fuel attempt w Hfuel) as (n & Hn & Hout & Hworld & _).
  fold run in Hout, Hworld. split; [exact Hout |].
  rewrite Hworld, trace_requested.
  change (count is_results_get (EvRequest (get_results self search_id) :: ?t))
    with (S (count is_results_get t)).
  change (count is_sleep (EvRequest (get_results self search_id) :: ?t))
    with (count is_sleep t).
  rewrite results_gets_retried, sleeps_retried. lia.
Qed.

(** X4. An answer 200 to the results request ends the fetch at once, whatever
    its body: a body that is no JSON raises JSONDecodeError and a JSON value
    that is no object raises AttributeError, each after this one request and
    without a retry. *)
Theorem fetch_unreadable fuel attempt w :
  let resp := results_response backend (count is_results_get (trace w)) in
  status_code resp = 200 →
  (json_body resp = None →
     _get_results backend (S fuel) self search_id attempt w
     = (Raise JSONDecodeError, requested backend w (get_results self search_id)))
  ∧ (∀ v, json_body resp = Some v → (∀ d, v ≠ PDict d) →
     _get_results backend (S fuel) self search_id attempt w
     = (Raise AttributeError, requested backend w (get_results self search_id))).
Proof.
  intros resp Hcode. apply Z.eqb_eq in Hcode.
  split.
  - intros Hbody. rewrite fetch_step. fold resp. cbv zeta. rewrite Hcode.
    unfold unwrap. by rewrite Hbody.
  - intros v Hbody Hv. rewrite fetch_step. fold resp. cbv zeta. rewrite Hcode.
    unfold unwrap. rewrite Hbody. destruct v; try reflexivity.
    by destruct (Hv d).
Qed.

End History.

Lemma fetch_bounded_witness :
  fst (_get_results (flaky 12) 12 token_client (PStr "abc") 0 w0) ≠ OutOfFuel
  ∧ (count is_results_get
       (trace (snd (_get_results (flaky 12) 12 token_client (PStr "abc") 0 w0))) <= 12)%nat.
Proof.
  destruct (fetch_bounded (flaky 12) token_client (PStr "abc") 12 0 w0)
    as (Hout & Hgets & _).
  - vm_compute. lia.
  - split; [exact Hout | exact Hgets].
Defined.

Lemma fetch_unreadable_witness :
  _get_results (following (λ _, status_body "COMPLETED") (λ _, Response 200 None))
    1 token_client (PStr "abc") 0 w0
  = (Raise JSONDecodeError,
     requested (following (λ _, status_body "COMPLETED") (λ _, Response 200 None))
       w0 (get_results token_client (PStr "abc")))
  ∧ _get_results (following (λ _, status_body "COMPLETED") (λ _, ok rows))
      1 token_client (PStr "abc") 0 w0
    = (Raise AttributeError,
       requested (following (λ _, status_body "COMPLETED") (λ _, ok rows))
         w0 (get_results token_client (PStr "abc"))).
Proof.
  split.
  - apply (proj1 (fetch_unreadable
                    (following (λ _, status_body "COMPLETED") (λ _, Response 200 None))
                    token_client (PStr "abc") 0 0 w0 eq_refl)).
    reflexivity.
  - apply (proj2 (fetch_unreadable
                    (following (λ _, status_body "COMPLETED") (λ _, ok rows))
                    token_client (PStr "abc") 0 0 w0 eq_refl) rows eq_refl).
    intros d Hd. discriminate Hd.
Defined.

(** ** Time *)

Section Time.

Context (backend : Backend) `{PyFloat}.
Variables (self : QRadar) (search_id : pyval).

Local Abbreviation poll := (get_search self search_id).
Local Abbreviation fetch := (get_results self search_id).

Hypothesis duration_nonneg : ∀ i, 0 <= duration backend i.

Lemma clock_retried_lower n r : ∀ w,
  clock w + Z.of_nat n * (5 * second) <= clock (retried backend n r 5 w).
Proof.
  induction n as [| n IH]; intros w; [simpl; lia |].
  simpl retried. specialize (IH (slept backend (requested backend w r) 5)).
  rewrite clock_slept, clock_requested in IH.
  pose proof (duration_nonneg (length (trace w))).
  pose proof (duration_nonneg (length (trace (requested backend w r)))).
  unfold second in *. lia.
Qed.

Lemma clock_retried_upper dmax n r : ∀ w,
  (∀ i, duration backend i <= dmax) →
  clock (retried backend n r 5 w) <= clock w + Z.of_nat n * (5 * second + 2 * dmax).
Proof.
  intros w Hmax. revert w.
  induction n as [| n IH]; intros w; [simpl; lia |].
  simpl retried. specialize (IH (slept backend (requested backend w r) 5)).
  rewrite clock_slept, clock_requested in IH.
  pose proof (Hmax (length (trace w))).
  pose proof (Hmax (length (trace (requested backend w r)))).
  unfold second in *. lia.
Qed.

(** X5. How long a fetch takes, where every event of the backend takes
    between 0 and [dmax]: at most 55 seconds of sleep and 23 such delays,
    whatever the backend answers, and at least 55 seconds when it gives up.
    The deadline of the search plays no part in it. *)
Theorem fetch_duration fuel w dmax :
  (∀ i, duration backend i <= dmax) →
  (12 <= fuel)%nat →
  let run := _get_results backend fuel self search_id 0 w in
  clock w <= clock (snd run) <= clock w + 55 * second + 23 * dmax
  ∧ (fst run = Raise CouldNotLoadResults → clock w + 55 * second <= clock (snd run)).
Proof.
  intros Hmax Hfuel run.
  destruct (fetch_run backend self search_id fuel 0 w) as (n & Hn & _ & Hworld & Hgave);
    [simpl; lia |].
  fold run in Hworld, Hgave. rewrite Hworld, clock_requested.
  pose proof (clock_retried_lower n fetch w) as Hlow.
  pose proof (clock_retried_upper dmax n fetch w Hmax) as Hup.
  pose proof (duration_nonneg (length (trace (retried backend n fetch 5 w)))) as Hd0.
  pose proof (Hmax (length (trace (retried backend n fetch 5 w)))) as Hd1.
  assert (0 <= dmax) by (pose proof (duration_nonneg O); pose proof (Hmax O); lia).
  change (Z.to_nat (11 - 0)) with 11%nat in *.
  split.
  - unfold second in *. nia.
  - intros Hraise. rewrite (Hgave Hraise) in *. unfold second in *. lia.
Qed.

Variables (search_start timeout_at : Z).

Local Abbreviation loop fuel :=
  (wait_loop backend fuel self search_id search_start timeout_at).

(** The polls of the wait loop: one more is sent only while the deadline is
    ahead, and two polls are at least 5 seconds apart. *)
Lemma loop_polls fuel : ∀ w,
  ∃ new, count is_status_get (trace (snd (loop fuel w)))
         = (count is_status_get (trace w) + new)%nat
         ∧ (new = O ∨ (Z.of_nat new - 1) * (5 * second) < timeout_at - clock w).
Proof.
  induction fuel as [| fuel IH]; intros w.
  - exists O. split; [simpl; lia | by left].
  - rewrite loop_step. destruct (clock w <? timeout_at) eqn:Hearly.
    + apply Z.ltb_lt in Hearly.
      destruct (judge _).
      * destruct (IH (slept backend (requested backend w poll) 5))
          as (new & Hcount & Hnew).
        exists (S new). split.
        -- rewrite Hcount, status_gets_round. lia.
        -- right. rewrite clock_slept, clock_requested in Hnew.
           pose proof (duration_nonneg (length (trace w))).
           pose proof (duration_nonneg (length (trace (requested backend w poll)))).
           unfold second in *. lia.
      * exists 1%nat. split; [cbn [snd]; rewrite trace_requested | right; simpl; lia].
        change (count is_status_get (EvRequest poll :: ?t))
          with (S (count is_status_get t)). lia.
      * exists 1%nat. split; [cbn [snd]; rewrite trace_requested | right; simpl; lia].
        change (count is_status_get (EvRequest poll :: ?t))
          with (S (count is_status_get t)). lia.
      * exists 1%nat. split; [cbn [snd]; rewrite trace_requested | right; simpl; lia].
        change (count is_status_get (EvRequest poll :: ?t))
          with (S (count is_status_get t)). lia.
    + exists O. split; [cbn [snd]; rewrite trace_requested | by left].
      change (count is_status_get (EvRequest (delete_search self search_id) :: ?t))
        with (count is_status_get t). lia.
Qed.

(** The wait loop ends: with the deadline at most [n] sleeps away, more than
    [n] units of fuel are never used up. *)
Lemma loop_ends fuel : ∀ n w,
  timeout_at - clock w <= Z.of_nat n * (5 * second) →
  (n < fuel)%nat →
  fst (loop fuel w) ≠ OutOfFuel.
Proof.
  induction fuel as [| fuel IH]; intros n w Hnear Hfuel; [lia |].
  rewrite loop_step. destruct (clock w <? timeout_at) eqn:Hearly; [| done].
  apply Z.ltb_lt in Hearly.
  destruct (judge _); try done.
  apply (IH (pred n)); [| unfold second in *; lia].
  rewrite clock_slept, clock_requested.
  pose proof (duration_nonneg (length (trace w))).
  pose proof (duration_nonneg (length (trace (requested backend w poll)))).
  unfold second in *. lia.
Qed.

End Time.

(** ** The ends of a search *)

Section Ends.

Context (backend : Backend) `{PyFloat}.
Variable self : QRadar.

(** X6. An answer to a poll whose JSON object has no status, a status that is
    no string, or a string other than CANCELED, ERROR and COMPLETED in
    capitals, is taken as still running, whatever its status code: the loop
    sleeps 5 seconds and polls again. *)
Theorem loop_unknown_status search_id search_start timeout_at fuel w d :
  clock w < timeout_at →
  json_body (status_response backend (count is_status_get (trace w))) = Some (PDict d) →
  (∀ s, assoc_get "status" d = Some (PStr s) →
        s ≠ "CANCELED" ∧ s ≠ "ERROR" ∧ s ≠ "COMPLETED") →
  wait_loop backend (S fuel) self search_id search_start timeout_at w
  = wait_loop backend fuel self search_id search_start timeout_at
      (slept backend (requested backend w (get_search self search_id)) 5).
Proof.
  intros Hearly Hbody Hstatus. rewrite loop_step.
  apply Z.ltb_lt in Hearly. rewrite Hearly.
  unfold judge. rewrite Hbody.
  destruct (assoc_get "status" d) as [[| | | | s | |] |]; try reflexivity.
  destruct (Hstatus s eq_refl) as (Hc & He & Hd).
  simpl. by rewrite !bool_decide_eq_false_2.
Qed.

(** X7. With a time-out of zero or less the wait loop never polls: a search
    whose job is created deletes it at once and raises the time-out; its
    history is the creation request followed by the delete. *)
Theorem search_no_time fuel aql start_time end_time limit priority w search_id :
  let query := composed_query (Datetime (clock w)) aql start_time end_time limit priority in
  let resp := post_response backend (count is_post (trace w)) in
  timeout self <= 0 →
  status_code resp = 201 →
  created_id resp = Return search_id →
  search backend (S fuel) self aql start_time end_time limit priority w
  = (Raise (SearchTimedOut (timeout self)),
     requested backend (requested backend w (post_search self query))
       (delete_search self search_id)).
Proof.
  intros query resp Hzero Hcode Hid. rewrite search_step. fold query resp.
  apply Z.eqb_eq in Hcode. rewrite Hcode, Hid, loop_step.
  replace (_ <? _) with false; [reflexivity |].
  symmetry. apply Z.ltb_ge. unfold second. lia.
Qed.

Hypothesis duration_nonneg : ∀ i, 0 <= duration backend i.

(** X8. A search polls at most 12 times per minute of its time-out, whatever
    the backend answers, and not at all with a time-out of zero or less. *)
Theorem search_poll_bound fuel aql start_time end_time limit priority w :
  (count is_status_get
     (trace (snd (search backend fuel self aql start_time end_time limit priority w)))
   <= count is_status_get (trace w) + Z.to_nat (12 * timeout self))%nat.
Proof.
  rewrite search_step.
  set (query := composed_query _ _ _ _ _ _).
  set (w1 := requested backend w (post_search self query)).
  assert (Hw1 : count is_status_get (trace w1) = count is_status_get (trace w))
    by reflexivity.
  destruct (status_code _ =? 201); [| cbn [snd]; lia].
  destruct (created_id _) as [sid | e |]; [| cbn [snd]; lia | cbn [snd]; lia].
  destruct (loop_polls backend self sid duration_nonneg (clock w1)
              (clock w1 + timeout self * 60 * second) fuel w1)
    as (new & Hcount & Hnew).
  assert (Hbound : (new <= Z.to_nat (12 * timeout self))%nat)
    by (unfold second in Hnew; lia).
  destruct (wait_loop backend fuel self sid (clock w1)
              (clock w1 + timeout self * 60 * second) w1) as [[[] | e |] w2];
    cbn [snd] in Hcount; [| cbn [snd]; lia | cbn [snd]; lia].
  destruct (fetch_shape backend self sid fuel 0 w2) as (fetches & Hftrace & Hfetches & _).
  assert (Hw3 : count is_status_get
                  (trace (snd (_get_results backend fuel self sid 0 w2)))
                = count is_status_get (trace w2)).
  { rewrite Hftrace, count_app.
    by rewrite (count_fetching is_status_get self sid fetches). }
  destruct (_get_results backend fuel self sid 0 w2) as [[rows | e |] w3];
    cbn [snd] in Hw3; [| cbn [snd]; lia | cbn [snd]; lia].
  destruct (cleanup_results self); cbn [snd]; [| lia].
  rewrite trace_requested.
  change (count is_status_get (EvRequest (delete_search self sid) :: trace w3))
    with (count is_status_get (trace w3)).
  lia.
Qed.

(** X9. A search ends, whatever the backend answers, as long as time does not
    run backwards: with more than [12 * timeout] units of fuel, and at least
    12, the fuel is never used up. *)
Theorem search_ends fuel aql start_time end_time limit priority w :
  (Z.to_nat (12 * timeout self) < fuel)%nat →
  (12 <= fuel)%nat →
  fst (search backend fuel self aql start_time end_time limit priority w) ≠ OutOfFuel.
Proof.
  intros Hloop Hfetch. rewrite search_step.
  set (query := composed_query _ _ _ _ _ _).
  set (w1 := requested backend w (post_search self query)).
  destruct (status_code _ =? 201); [| done].
  destruct (created_id _) as [sid | e |] eqn:Hid; [| done |].
  2: { unfold created_id in Hid. repeat case_match; congruence. }
  pose proof (loop_ends backend self sid duration_nonneg (clock w1)
                (clock w1 + timeout self * 60 * second) fuel
                (Z.to_nat (12 * timeout self)) w1) as Hends.
  destruct (wait_loop backend fuel self sid (clock w1)
              (clock w1 + timeout self * 60 * second) w1) as [[[] | e |] w2];
    [| done |].
  2: { exfalso. apply Hends; [unfold second; lia | done | reflexivity]. }
  destruct (fetch_run backend self sid fuel 0 w2) as (n & _ & Hout & _);
    [simpl; lia |].
  destruct (_get_results backend fuel self sid 0 w2) as [[rows | e |] w3]; done.
Qed.

End Ends.

(** ** A search whose job completes *)

Section Journey.

Context (backend : Backend) `{PyFloat}.
Variables (self : QRadar) (search_id : pyval).

Local Abbreviation poll := (get_search self search_id).
Local Abbreviation fetch := (get_results self search_id).

Hypothesis duration_nonneg : ∀ i, 0 <= duration backend i.

Lemma count_rounds p n r s :
  count p (rounds n r s) = (n * count p [EvSleep s; EvRequest r])%nat.
Proof.
  induction n as [| n IH]; [reflexivity |].
  simpl rounds. rewrite count_app, IH. lia.
Qed.

Lemma status_gets_retried n w :
  count is_status_get (trace (retried backend n poll 5 w))
  = (count is_status_get (trace w) + n)%nat.
Proof.
  rewrite trace_retried, count_app, count_rounds.
  change (count is_status_get [EvSleep 5; EvRequest poll]) with 1%nat. lia.
Qed.

(** [n] polls that find the job pending, the last of them before the
    deadline. *)
Lemma loop_rounds search_start timeout_at n : ∀ fuel w,
  (∀ k, (k < n)%nat →
     judge (status_response backend (count is_status_get (trace w) + k)) = Pending) →
  clock (retried backend n poll 5 w) < timeout_at →
  wait_loop backend (n + fuel) self search_id search_start timeout_at w
  = wait_loop backend fuel self search_id search_start timeout_at
      (retried backend n poll 5 w).
Proof.
  induction n as [| n IH]; intros fuel w Hpending Hclock; [reflexivity |].
  change (S n + fuel)%nat with (S (n + fuel)). rewrite loop_step.
  simpl retried in Hclock.
  pose proof (clock_retried_lower backend duration_nonneg n poll
                (slept backend (requested backend w poll) 5)) as Hlow.
  rewrite clock_slept, clock_requested in Hlow.
  pose proof (duration_nonneg (length (trace w))).
  pose proof (duration_nonneg (length (trace (requested backend w poll)))).
  replace (clock w <? timeout_at) with true
    by (symmetry; apply Z.ltb_lt; unfold second in *; lia).
  pose proof (Hpending O ltac:(lia)) as Hfirst.
  rewrite Nat.add_0_r in Hfirst. rewrite Hfirst.
  apply IH; [| exact Hclock].
  intros k Hk. rewrite status_gets_round.
  replace (S (count is_status_get (trace w)) + k)%nat
    with (count is_status_get (trace w) + S k)%nat by lia.
  apply Hpending. lia.
Qed.

Variables (aql : string) (start_time end_time : option datetime).
Variables (limit : option Z) (priority : option string) (w : World) (fuel n : nat).

Local Abbreviation query :=
  (composed_query (Datetime (clock w)) aql start_time end_time limit priority).
Local Abbreviation w1 := (requested backend w (post_search self query)).
Local Abbreviation w2 := (requested backend (retried backend n poll 5 w1) poll).

Hypothesis created_201 :
  status_code (post_response backend (count is_post (trace w))) = 201.
Hypothesis created_search_id :
  created_id (post_response backend (count is_post (trace w))) = Return search_id.
Hypothesis polls_pending : ∀ k, (k < n)%nat →
  judge (status_response backend (count is_status_get (trace w) + k)) = Pending.
Hypothesis poll_done :
  judge (status_response backend (count is_status_get (trace w) + n)) = Done.
Hypothesis in_time :
  clock (retried backend n poll 5 w1) < clock w1 + timeout self * 60 * second.
Hypothesis loop_fuel : (n < fuel)%nat.

Lemma journey_loop :
  wait_loop backend fuel self search_id (clock w1)
    (clock w1 + timeout self * 60 * second) w1 = (Return tt, w2).
Proof.
  replace fuel with (n + S (fuel - S n))%nat by lia.
  rewrite loop_rounds; [| exact polls_pending | exact in_time].
  rewrite loop_step.
  replace (_ <? _) with true by (symmetry; apply Z.ltb_lt; exact in_time).
  rewrite status_gets_retried.
  change (count is_status_get (trace w1)) with (count is_status_get (trace w)).
  by rewrite poll_done.
Qed.

Lemma journey_results_gets :
  count is_results_get (trace w2) = count is_results_get (trace w).
Proof.
  rewrite trace_requested.
  change (count is_results_get (EvRequest poll :: ?t)) with (count is_results_get t).
  rewrite trace_retried, count_app, count_rounds.
  change (count is_results_get [EvSleep 5; EvRequest poll]) with 0%nat.
  change (count is_results_get (trace w1)) with (count is_results_get (trace w)).
  lia.
Qed.

(** X10. A search whose job is created, found pending by [n] polls and
    completed by the next one, in time, and whose results request is
    answered 200 with rows after [m] failures, [m] at most 11: it returns
    the rows. Its history is the creation request, [n] rounds of poll and
    sleep, the last poll, [m] rounds of results request and sleep, the last
    results request, and then the delete exactly when [cleanup_results] is
    set. *)
Theorem search_returns m rows :
  (m <= 11)%nat → (m < fuel)%nat →
  (∀ k, (k < m)%nat →
     status_code (results_response backend (count is_results_get (trace w) + k)) ≠ 200) →
  status_code (results_response backend (count is_results_get (trace w) + m)) = 200 →
  unwrap (results_response backend (count is_results_get (trace w) + m)) = Return rows →
  search backend fuel self aql start_time end_time limit priority w
  = (Return rows,
     let w3 := requested backend (retried backend m fetch 5 w2) fetch in
     if cleanup_results self then requested backend w3 (delete_search self search_id)
     else w3).
Proof.
  intros Hm Hfuel Hfail Hcode Hrows.
  rewrite search_step. cbv zeta.
  apply Z.eqb_eq in created_201. rewrite created_201, created_search_id, journey_loop.
  replace fuel with (m + S (fuel - S m))%nat at 1 by lia.
  rewrite get_results_retry;
    [| by intros k Hk; rewrite journey_results_gets; apply Hfail | lia].
  rewrite fetch_step. cbv zeta.
  rewrite results_gets_retried, journey_results_gets.
  apply Z.eqb_eq in Hcode. by rewrite Hcode, Hrows.
Qed.

(** X11. The same search when the results request fails 12 times: it raises
    the "Could not load search results" exception after the 12th request and
    leaves the job undeleted, [cleanup_results] set or not. *)
Theorem search_gives_up :
  (12 <= fuel)%nat →
  (∀ k, (k < 12)%nat →
     status_code (results_response backend (count is_results_get (trace w) + k)) ≠ 200) →
  let w3 := requested backend (retried backend 11 fetch 5 w2) fetch in
  search backend fuel self aql start_time end_time limit priority w
  = (Raise CouldNotLoadResults, w3)
  ∧ count is_delete (trace w3) = count is_delete (trace w).
Proof.
  intros Hfuel Hfail w3. split.
  - rewrite search_step. cbv zeta.
    apply Z.eqb_eq in created_201. rewrite created_201, created_search_id, journey_loop.
    replace fuel with (11 + S (fuel - 12))%nat at 1 by lia.
    rewrite get_results_retry;
      [| by intros k Hk; rewrite journey_results_gets; apply Hfail; lia | lia].
    rewrite get_results_give_up; [reflexivity | | lia].
    rewrite results_gets_retried, journey_results_gets. apply Hfail. lia.
  - unfold w3. rewrite trace_requested.
    change (count is_delete (EvRequest fetch :: ?t)) with (count is_delete t).
    rewrite trace_retried, count_app, count_rounds, trace_requested.
    change (count is_delete [EvSleep 5; EvRequest fetch]) with 0%nat.
    change (count is_delete (EvRequest poll :: ?t)) with (count is_delete t).
    rewrite trace_retried, count_app, count_rounds.
    change (count is_delete [EvSleep 5; EvRequest poll]) with 0%nat.
    change (count is_delete (trace w1)) with (count is_delete (trace w)).
    lia.
Qed.

End Journey.

(** ** Credentials, limit and creation answers *)

Section Wire.

Context (backend : Backend) `{PyFloat}.

Lemma request_of_client self query search_id r :
  r ∈ [post_search self query; get_search self search_id;
       get_results self search_id; delete_search self search_id] →
  req_console r = console self
  ∧ req_proxies r = proxy self
  ∧ (∀ k, k ≠ "Content-Type" → req_headers r !! k = headers self !! k)
  ∧ req_headers r !! "Content-Type"
    = match req_method r with
      | POST => Some "application/x-www-form-urlencoded"
      | _ => headers self !! "Content-Type"
      end.
Proof.
  intros Hr.
  repeat (apply elem_of_cons in Hr as [-> | Hr]); [| | | | by apply elem_of_nil in Hr];
    (split; [reflexivity |]; split; [reflexivity |]; split; [| by simplify_map_eq]);
    intros k Hk; simpl; unfold _get_headers; by simplify_map_eq.
Qed.

(** X12. Every request of a constructed client goes to its console through
    its proxy (none when the proxy passed is empty) and carries the Accept
    header and the credentials chosen at construction: username and
    password and no SEC header with a complete basic pair, the token as SEC
    header and neither username nor password otherwise. The Content-Type
    header is on the creation request only: the later requests do not
    inherit it. *)
Theorem requests_carry_credentials console username password token proxy timeout debug
    cleanup_results w w' self query search_id r :
  __init__ console username password token proxy timeout debug cleanup_results w
    = (Return self, w') →
  r ∈ [post_search self query; get_search self search_id;
       get_results self search_id; delete_search self search_id] →
  req_console r = console
  ∧ req_proxies r = (if truthy_str proxy then proxy else None)
  ∧ req_headers r !! "Accept" = Some "application/json"
  ∧ (basic_pair username password →
       req_headers r !! "username" = username
       ∧ req_headers r !! "password" = password
       ∧ req_headers r !! "SEC" = None)
  ∧ (¬ basic_pair username password →
       req_headers r !! "SEC" = token
       ∧ req_headers r !! "username" = None
       ∧ req_headers r !! "password" = None)
  ∧ req_headers r !! "Content-Type"
    = match req_method r with
      | POST => Some "application/x-www-form-urlencoded"
      | _ => None
      end.
Proof.
  unfold __init__. intros Hinit Hr.
  destruct (request_of_client self query search_id r Hr)
    as (Hconsole & Hproxy & Hother & Htype).
  rewrite Hconsole, Hproxy, Htype, !Hother by done.
  destruct (truthy_str username && truthy_str password) eqn:Hbasic.
  - injection Hinit as <- _. simpl.
    apply andb_true_iff in Hbasic as [Hu Hp].
    split; [reflexivity |]. split; [reflexivity |]. split; [by simplify_map_eq |].
    split; [| split].
    + intros _. destruct username as [u |]; [| discriminate Hu].
      destruct password as [pw |]; [| discriminate Hp].
      simpl. repeat split; by simplify_map_eq.
    + intros Hno. destruct Hno. by split.
    + destruct (req_method r); by simplify_map_eq.
  - destruct (truthy_str token) eqn:Htoken; [| discriminate].
    injection Hinit as <- _. simpl.
    split; [reflexivity |]. split; [reflexivity |]. split; [by simplify_map_eq |].
    split; [| split].
    + intros [Hu Hp]. by rewrite Hu, Hp in Hbasic.
    + intros _. destruct token as [t |]; [| discriminate Htoken].
      simpl. repeat split; by simplify_map_eq.
    + destruct (req_method r); by simplify_map_eq.
Qed.

(** X13. A limit of 0 appends no LIMIT clause, like no limit; any other
    limit, a negative one included, appends LIMIT and its decimal text. *)
Theorem limit_dropped_at_zero aql start_time end_time priority n w :
  build_query aql start_time end_time (Some 0) priority w
  = build_query aql start_time end_time None priority w
  ∧ (n ≠ 0 →
     build_query aql None None (Some n) None w
     = (Return (aql +:+ nl +:+ " LIMIT " +:+ str_int n), w)).
Proof.
  rewrite !build_query_run. split; [reflexivity |].
  intros Hn. apply Z.eqb_neq in Hn. unfold limit_clause. rewrite Hn. simpl.
  by rewrite !append_empty_r.
Qed.

(** X14. A creation answer 201 is not examined further than its body: a body
    that is no JSON raises JSONDecodeError, a JSON value that is no object
    raises AttributeError, and an object without search_id is no error:
    [_start_search] returns None. In each case the creation request is the
    only request. *)
Theorem start_search_unreadable self query w :
  let resp := post_response backend (count is_post (trace w)) in
  let w' := requested backend w (post_search self query) in
  status_code resp = 201 →
  (json_body resp = None →
     _start_search backend self query w = (Raise JSONDecodeError, w'))
  ∧ (∀ v, json_body resp = Some v → (∀ d, v ≠ PDict d) →
     _start_search backend self query w = (Raise AttributeError, w'))
  ∧ (∀ d, json_body resp = Some (PDict d) → assoc_get "search_id" d = None →
     _start_search backend self query w = (Return PNone, w')).
Proof.
  intros resp w' Hcode. apply Z.eqb_eq in Hcode.
  rewrite start_step. fold resp w'. cbv zeta. rewrite Hcode. unfold created_id.
  split; [| split].
  - by intros ->.
  - intros v -> Hv. destruct v; try reflexivity. by destruct (Hv d).
  - by intros d -> ->.
Qed.

End Wire.

(** ** The properties above on sample runs *)

Ltac script_facts :=
  first
    [ exact (λ i, proj1 (lag_bounds i))
    | exact (λ i, proj2 (lag_bounds i))
    | reflexivity
    | lia
    | vm_compute; reflexivity
    | vm_compute; lia
    | let k := fresh "k" in
      let Hk := fresh "Hk" in
      intros k Hk;
      do 12 (destruct k as [| k];
             [first [ reflexivity
                    | let Hx := fresh in intro Hx; vm_compute in Hx; discriminate Hx
                    | lia ] |]);
      lia ].

Lemma fetch_duration_witness :
  clock w0 + 55 * second
  <= clock (snd (_get_results (flaky 12) 12 token_client (PStr "abc") 0 w0)).
Proof.
  apply (fetch_duration (flaky 12) token_client (PStr "abc")
           (λ i, proj1 (lag_bounds i)) 12 w0 200000
           (λ i, proj2 (lag_bounds i)) (le_n 12)).
  vm_compute. reflexivity.
Defined.

Lemma loop_unknown_status_witness :
  wait_loop lost 2 token_client (PStr "abc") (clock w0) (clock w0 + 60 * second) w0
  = wait_loop lost 1 token_client (PStr "abc") (clock w0) (clock w0 + 60 * second)
      (slept lost (requested lost w0 (get_search token_client (PStr "abc"))) 5).
Proof.
  apply (loop_unknown_status lost token_client (PStr "abc") (clock w0)
           (clock w0 + 60 * second) 1 w0 [("message", PStr "not found")]).
  - vm_compute. reflexivity.
  - reflexivity.
  - intros s Hs. discriminate Hs.
Defined.

Lemma search_no_time_witness :
  search (creating (created "abc")) 1 basic_client "SELECT 1" None None None None w0
  = (Raise (SearchTimedOut 0),
     requested (creating (created "abc"))
       (requested (creating (created "abc")) w0 (post_search basic_client "SELECT 1"))
       (delete_search basic_client (PStr "abc"))).
Proof.
  apply (search_no_time (creating (created "abc")) basic_client 0
           "SELECT 1" None None None None w0 (PStr "abc")).
  - simpl. lia.
  - reflexivity.
  - reflexivity.
Defined.

Lemma search_poll_bound_witness :
  (count is_status_get
     (trace (snd (search (scripted [] "RUNNING") 30 token_client "SELECT 1"
                    None None None None w0))) <= 12)%nat.
Proof.
  apply (search_poll_bound (scripted [] "RUNNING") token_client
           (λ i, proj1 (lag_bounds i)) 30 "SELECT 1" None None None None w0).
Defined.

Lemma search_ends_witness :
  fst (search (scripted [] "RUNNING") 13 token_client "SELECT 1" None None None None w0)
  ≠ OutOfFuel.
Proof.
  apply (search_ends (scripted [] "RUNNING") token_client
           (λ i, proj1 (lag_bounds i)) 13 "SELECT 1" None None None None w0).
  - vm_compute. lia.
  - lia.
Defined.

Lemma search_returns_witness :
  ∃ w',
    search
      (following (λ k, status_body (nth k ["RUNNING"; "RUNNING"] "COMPLETED"))
         (λ k, if (k <? 3)%nat then unavailable else ok events))
      20 token_client "SELECT 1" None None None None w0 = (Return rows, w')
    ∧ count is_delete (trace w') = 1%nat
    ∧ count is_status_get (trace w') = 3%nat
    ∧ count is_results_get (trace w') = 4%nat.
Proof.
  eexists. split.
  - apply search_returns with (search_id := PStr "abc") (n := 2%nat) (m := 3%nat);
      script_facts.
  - vm_compute. repeat split.
Defined.

Lemma search_gives_up_witness :
  ∃ w',
    search (following (λ _, status_body "COMPLETED") (λ _, unavailable))
      12 token_client "SELECT 1" None None None None w0
    = (Raise CouldNotLoadResults, w')
    ∧ count is_delete (trace w') = 0%nat.
Proof.
  eexists.
  apply search_gives_up with (search_id := PStr "abc") (n := 0%nat); script_facts.
Defined.

Lemma requests_carry_credentials_witness :
  ∃ self,
    __init__ "qradar.example.com" (Some "admin") (Some "hunter2") (Some "s3cr3t")
      (Some "") 10 false true w0 = (Return self, w0)
    ∧ req_headers (get_search self (PStr "abc")) !! "username" = Some "admin"
    ∧ req_headers (get_search self (PStr "abc")) !! "SEC" = None
    ∧ req_headers (get_search self (PStr "abc")) !! "Content-Type" = None
    ∧ req_proxies (get_search self (PStr "abc")) = None.
Proof.
  pose (self := MkQRadar "qradar.example.com" None 10 false true
                  (<[ "password" := "hunter2" ]>
                     (<[ "username" := "admin" ]> {[ "Accept" := "application/json" ]}))).
  exists self. split; [reflexivity |].
  destruct (requests_carry_credentials "qradar.example.com" (Some "admin")
              (Some "hunter2") (Some "s3cr3t") (Some "") 10 false true w0 w0 self
              "SELECT 1" (PStr "abc") (get_search self (PStr "abc")) eq_refl)
    as (_ & Hproxy & _ & Hbasic & _ & Htype).
  - apply elem_of_cons. right. apply elem_of_cons. left. reflexivity.
  - destruct Hbasic as (Hu & _ & Hsec); [split; reflexivity |].
    split; [exact Hu |]. split; [exact Hsec |]. split; [exact Htype | exact Hproxy].
Defined.

Lemma limit_dropped_at_zero_witness :
  build_query "SELECT 1" None None (Some (-5)) None w0
  = (Return ("SELECT 1" +:+ nl +:+ " LIMIT -5"), w0).
Proof.
  rewrite (proj2 (limit_dropped_at_zero "SELECT 1" None None None (-5) w0));
    [reflexivity | lia].
Defined.

Lemma start_search_unreadable_witness :
  _start_search (creating (Response 201 (Some (PDict [("id", PInt 7)]))))
    token_client "SELECT 1" w0
  = (Return PNone,
     requested (creating (Response 201 (Some (PDict [("id", PInt 7)]))))
       w0 (post_search token_client "SELECT 1")).
Proof.
  apply (proj2 (proj2 (start_search_unreadable
                         (creating (Response 201 (Some (PDict [("id", PInt 7)]))))
                         token_client "SELECT 1" w0 eq_refl))
           [("id", PInt 7)]); reflexivity.
Defined.

(** ** No early time-out *)

Section Patience.

Context (backend : Backend) `{PyFloat}.
Variable self : QRadar.

Hypothesis duration_nonneg : ∀ i, 0 <= duration backend i.

Lemma loop_patient search_id search_start timeout_at fuel : ∀ w m,
  fst (wait_loop backend fuel self search_id search_start timeout_at w)
    = Raise (SearchTimedOut m) →
  timeout_at <= clock (snd (wait_loop backend fuel self search_id search_start timeout_at w)).
Proof.
  induction fuel as [| fuel IH]; intros w m; [discriminate |].
  rewrite loop_step. destruct (clock w <? timeout_at) eqn:Hearly.
  - destruct (judge _) as [| | status | e] eqn:Hjudge; try discriminate.
    + apply IH.
    + unfold judge in Hjudge. repeat case_match; simplify_eq; discriminate.
  - intros _. apply Z.ltb_ge in Hearly. cbn [snd]. rewrite clock_requested.
    pose proof (duration_nonneg (length (trace w))). lia.
Qed.

(** X15. A search never times out early: whatever the backend answers, when
    it raises the time-out the clock has passed the end of the creation
    request by [timeout] minutes. *)
Theorem search_patient fuel aql start_time end_time limit priority w m :
  let run := search backend fuel self aql start_time end_time limit priority w in
  fst run = Raise (SearchTimedOut m) →
  m = timeout self
  ∧ clock w + duration backend (length (trace w)) + timeout self * 60 * second
    <= clock (snd run).
Proof.
  intros run. unfold run. rewrite search_step.
  set (query := composed_query _ _ _ _ _ _).
  set (w1 := requested backend w (post_search self query)).
  destruct (status_code _ =? 201); [| discriminate].
  destruct (created_id _) as [sid | e |] eqn:Hid; [| | discriminate].
  2: { unfold created_id in Hid. repeat case_match; simplify_eq; discriminate. }
  pose proof (loop_patient sid (clock w1) (clock w1 + timeout self * 60 * second)
                fuel w1) as Hpatient.
  destruct (loop_shape backend self sid (clock w1)
              (clock w1 + timeout self * 60 * second) fuel w1)
    as (polls & dels & _ & _ & Hdels).
  destruct (wait_loop backend fuel self sid (clock w1)
              (clock w1 + timeout self * 60 * second) w1) as [[[] | e |] w2];
    cbn [fst snd] in *; [| | discriminate].
  - destruct (fetch_shape backend self sid fuel 0 w2) as (fetches & _ & _ & Hout).
    destruct (_get_results backend fuel self sid 0 w2) as [[rows | e |] w3];
      cbn [fst snd] in *; try discriminate.
    intros Hraise. by destruct (Hout m).
  - intros Hraise. injection Hraise as ->.
    specialize (Hpatient m eq_refl).
    destruct Hdels as [[_ Hno] | [_ Hyes]]; [by destruct (Hno m) |].
    split; [congruence |].
    unfold w1 in Hpatient at 1. rewrite clock_requested in Hpatient. exact Hpatient.
Qed.

End Patience.

Lemma search_patient_witness :
  clock w0 + 200000 + 60 * second
  <= clock (snd (search (scripted [] "RUNNING") 20 token_client "SELECT 1"
                   None None None None w0)).
Proof.
  apply (search_patient (scripted [] "RUNNING") token_client
           (λ i, proj1 (lag_bounds i)) 20 "SELECT 1" None None None None w0 1).
  vm_compute. reflexivity.
Defined.

(** ** The deadline of the wait loop *)

Section Deadline.

Context (backend : Backend) `{PyFloat}.
Variable self : QRadar.

Hypothesis duration_nonneg : ∀ i, 0 <= duration backend i.

(** The loop on a job that reports RUNNING to every poll sent before the
    deadline, the deadline being at most [bound] sleeps away: after some [n]
    rounds of poll and sleep, [n] the first number of rounds that takes the
    clock to the deadline, the condition turns false; the loop deletes the job
    and raises. *)
Lemma loop_times_out search_id search_start timeout_at bound : ∀ w,
  timeout_at - clock w <= Z.of_nat bound * (5 * second) →
  (∀ k, clock (retried backend k (get_search self search_id) 5 w) < timeout_at →
        reports (status_response backend (count is_status_get (trace w) + k)) "RUNNING") →
  ∃ n, (n <= bound)%nat
       ∧ (∀ k, (k < n)%nat →
            clock (retried backend k (get_search self search_id) 5 w) < timeout_at)
       ∧ timeout_at <= clock (retried backend n (get_search self search_id) 5 w)
       ∧ ∀ fuel, (n < fuel)%nat →
           wait_loop backend fuel self search_id search_start timeout_at w
           = (Raise (SearchTimedOut (timeout self)),
              requested backend (retried backend n (get_search self search_id) 5 w)
                (delete_search self search_id)).
Proof.
  induction bound as [| bound IH]; intros w Hnear Hrunning.
  - simpl in Hnear.
    exists O. split; [lia |]. split; [intros k Hk; lia |]. split; [simpl; lia |].
    intros [| fuel] Hfuel; [lia |]. apply loop_deadline. simpl. lia.
  - destruct (Z.lt_ge_cases (clock w) timeout_at) as [Hearly | Hlate].
    + destruct (IH (slept backend (requested backend w (get_search self search_id)) 5))
        as (n & Hn & Hbefore & Hafter & Hrun).
      { rewrite clock_slept, clock_requested.
        pose proof (duration_nonneg (length (trace w))).
        pose proof (duration_nonneg
                      (length (trace (requested backend w (get_search self search_id))))).
        unfold second in *. lia. }
      { intros k Hk. rewrite status_gets_round.
        replace (S (count is_status_get (trace w)) + k)%nat
          with (count is_status_get (trace w) + S k)%nat by lia.
        apply Hrunning. exact Hk. }
      exists (S n). split; [lia |]. split; [| split; [exact Hafter |]].
      * intros [| k] Hk; [exact Hearly |]. apply Hbefore. lia.
      * intros [| fuel] Hfuel; [lia |].
        rewrite (loop_pending backend self search_id search_start timeout_at fuel w
                   "RUNNING"); try done.
        -- apply Hrun. lia.
        -- specialize (Hrunning O Hearly). by rewrite Nat.add_0_r in Hrunning.
    + exists O. split; [lia |]. split; [intros k Hk; lia |]. split; [exact Hlate |].
      intros [| fuel] Hfuel; [lia |]. apply loop_deadline. exact Hlate.
Qed.

(** C2. A search whose job is created and reports RUNNING to every poll sent
    before the deadline, whatever it would report later: it sends [n] rounds
    of poll and 5-second sleep, where [n] is the first number of rounds that
    takes the clock to the deadline, [timeout] minutes after the start of the
    wait loop (so every poll is sent before the deadline, the condition is
    false after the [n]-th sleep, and [n] is at most [12 * timeout]); it then
    sends the delete of the job and raises the "Search did not finish
    within" exception. The delete is the last event and the only delete of
    the search, and the results endpoint is never asked. *)
Theorem search_times_out aql start_time end_time limit priority w d :
  let created := post_response backend (count is_post (trace w)) in
  let query := composed_query (Datetime (clock w)) aql start_time end_time limit priority in
  let search_id := default PNone (assoc_get "search_id" d) in
  let w1 := requested backend w (post_search self query) in
  let deadline := clock w1 + timeout self * 60 * second in
  status_code created = 201 →
  json_body created = Some (PDict d) →
  (∀ k, clock (retried backend k (get_search self search_id) 5 w1) < deadline →
        reports (status_response backend (count is_status_get (trace w) + k)) "RUNNING") →
  ∃ n,
    let w' := retried backend n (get_search self search_id) 5 w1 in
    (n <= Z.to_nat (12 * timeout self))%nat
    ∧ (∀ k, (k < n)%nat →
         clock (retried backend k (get_search self search_id) 5 w1) < deadline)
    ∧ deadline <= clock w'
    ∧ (∀ fuel, (n < fuel)%nat →
         search backend fuel self aql start_time end_time limit priority w
         = (Raise (SearchTimedOut (timeout self)),
            requested backend w' (delete_search self search_id)))
    ∧ count is_status_get (trace (requested backend w' (delete_search self search_id)))
      = (count is_status_get (trace w) + n)%nat
    ∧ count is_delete (trace (requested backend w' (delete_search self search_id)))
      = S (count is_delete (trace w))
    ∧ count is_results_get (trace (requested backend w' (delete_search self search_id)))
      = count is_results_get (trace w).
Proof.
  intros created query sid w1 deadline Hcode Hbody Hrunning.
  destruct (loop_times_out sid (clock w1) deadline (Z.to_nat (12 * timeout self)) w1)
    as (n & Hn & Hbefore & Hafter & Hrun).
  { unfold deadline, second. lia. }
  { exact Hrunning. }
  exists n. cbv zeta.
  split; [exact Hn |]. split; [exact Hbefore |]. split; [exact Hafter |].
  split; [| split; [| split]].
  - intros fuel Hfuel. rewrite search_step. fold query created w1. cbv zeta.
    apply Z.eqb_eq in Hcode. rewrite Hcode.
    unfold created_id. rewrite Hbody. fold sid. fold deadline.
    by rewrite (Hrun fuel Hfuel).
  - rewrite trace_requested.
    change (count is_status_get (EvRequest (delete_search self sid) :: ?t))
      with (count is_status_get t).
    by rewrite status_gets_retried.
  - rewrite trace_requested.
    change (count is_delete (EvRequest (delete_search self sid) :: ?t))
      with (S (count is_delete t)).
    rewrite trace_retried, count_app, count_rounds.
    change (count is_delete [EvSleep 5; EvRequest (get_search self sid)]) with 0%nat.
    change (count is_delete (trace w1)) with (count is_delete (trace w)). lia.
  - rewrite trace_requested.
    change (count is_results_get (EvRequest (delete_search self sid) :: ?t))
      with (count is_results_get t).
    rewrite trace_retried, count_app, count_rounds.
    change (count is_results_get [EvSleep 5; EvRequest (get_search self sid)]) with 0%nat.
    change (count is_results_get (trace w1)) with (count is_results_get (trace w)). lia.
Qed.

End Deadline.

(** The job of this backend is RUNNING for the 12 polls that a time-out of one
    minute leaves room for, and COMPLETED from the 13th on, after the
    deadline: the search times out after exactly 12 polls and one delete. *)
Lemma search_times_out_witness :
  ∃ w',
    (∀ fuel, (12 < fuel)%nat →
       search (scripted (repeat "RUNNING" 12) "COMPLETED") fuel token_client "SELECT 1"
         None None None None w0
       = (Raise (SearchTimedOut 1), w'))
    ∧ count is_status_get (trace w') = 12%nat
    ∧ count is_delete (trace w') = 1%nat
    ∧ count is_results_get (trace w') = 0%nat.
Proof.
  pose (B := scripted (repeat "RUNNING" 12) "COMPLETED").
  assert (Hlag : ∀ i, 0 <= duration B i) by (intros i; simpl; unfold lag; lia).
  destruct (search_times_out B token_client Hlag "SELECT 1" None None None None w0
              [("search_id", PStr "abc")] eq_refl eq_refl)
    as (n & Hn & Hbefore & Hafter & Hrun & Hpolls & Hdel & Hres).
  { intros k Hk. cbv zeta in Hk.
    match type of Hk with
    | clock (retried _ _ ?r _ ?w1) < _ =>
        pose proof (clock_retried_lower B Hlag k r w1) as Hlow
    end.
    assert (Hk12 : (k < 12)%nat).
    { change (timeout token_client) with 1 in Hk. unfold second in *. lia. }
    do 12 (destruct k as [| k]; [eexists; split; reflexivity |]). lia. }
  cbv zeta in *.
  assert (Hn12 : n = 12%nat).
  { change (Z.to_nat (12 * timeout token_client)) with 12%nat in Hn.
    destruct (Nat.eq_dec n 12%nat) as [-> | Hne]; [reflexivity | exfalso].
    do 12 (destruct n as [| n]; [vm_compute in Hafter; by apply Hafter |]). lia. }
  subst n. eexists. split; [exact Hrun |].
  split; [exact Hpolls |]. split; [exact Hdel | exact Hres].
Defined.
